(** * Circuit portal: field validation, lookup, registration and edit flows

    A shallow embedding of the TypeScript sources

    - [src/components/ClientRegistration.tsx] (registration form),
    - [src/components/CircuitDetails.tsx] (read-only view and edit form),
    - [src/components/CircuitSearch.tsx] (lookup over the demo list),
    - [src/pages/Index.tsx] (the [Circuit] record type and the callbacks),

    followed by the properties of the specification stated over it.

    Modelling conventions.

    - A JavaScript string is a Rocq [string]; a character stands for the
      UTF-16 code unit of the same number, so the strings covered are those
      whose code units are below 256.  Character classes ([\d], [\s], [\w]),
      [trim], [toLowerCase] and the case folding of the [/i] flag are the
      ECMAScript ones restricted to that range.
    - A number produced by [parseInt] is an [option Z]: [None] is [NaN],
      [Some n] is the mathematical value of the parsed digits.  The sources
      only compare these numbers with 1, 255 and 4094, and such comparisons
      are not changed by the rounding of a long digit string to a double.
    - [Record<string, string>] is a [gmap string string].
    - No handler assigns to a property of an object it holds: every update
      builds a new object with a spread.  Records are therefore values, and
      two names for one object cannot be told from two equal copies.
    - React state is an explicit record; a handler is a function from the
      state to the next state and to what it schedules or hands to its
      callback.  A [setTimeout] callback is a separate function that takes
      what the closure captured and the clock reading at the time it runs. *)

From Stdlib Require Import ZArith NArith Ascii List Bool Lia.
From stdpp Require Import gmap strings.

Local Open Scope Z_scope.

(** ** Characters *)

Module Char.

Definition code (c : ascii) : N := N_of_ascii c.

Definition in_range (lo hi : N) (c : ascii) : bool :=
  ((lo <=? code c) && (code c <=? hi))%N.

(** [\d] *)
Definition is_digit (c : ascii) : bool := in_range 48 57 c.

Definition is_upper (c : ascii) : bool := in_range 65 90 c.
Definition is_lower (c : ascii) : bool := in_range 97 122 c.

(** [\w] is [[A-Za-z0-9_]] *)
Definition is_word (c : ascii) : bool :=
  is_upper c || is_lower c || is_digit c || (code c =? 95)%N.

(** ECMAScript WhiteSpace and LineTerminator below 256: TAB, LF, VT, FF,
    CR, SP and NBSP.  This is the set of [\s] and of [trim]. *)
Definition is_space (c : ascii) : bool :=
  in_range 9 13 c || (code c =? 32)%N || (code c =? 160)%N.

(** [toLowerCase] on one code unit: A-Z and the Latin-1 capitals
    U+00C0-U+00DE (U+00D7, the multiplication sign, excepted). *)
Definition toLowerCase (c : ascii) : ascii :=
  if is_upper c || (in_range 192 222 c && negb (code c =? 215)%N)
  then ascii_of_N (code c + 32) else c.

(** [toUpperCase] on one code unit, as a code unit: a-z and the Latin-1
    small letters go 32 down, U+00B5 goes to U+039C and U+00FF to U+0178;
    U+00DF has a two-unit upper case and is reported as [None]. *)
Definition toUpperCase (c : ascii) : option N :=
  if is_lower c || (in_range 224 254 c && negb (code c =? 247)%N)
  then Some (code c - 32)%N
  else if (code c =? 181)%N then Some 924%N
  else if (code c =? 255)%N then Some 376%N
  else if (code c =? 223)%N then None
  else Some (code c).

(** Canonicalize of the [/i] flag without [/u]: the upper case of the
    character, unless that is not one code unit or would turn a
    non-ASCII character into an ASCII one. *)
Definition canonicalize (c : ascii) : N :=
  match toUpperCase c with
  | None => code c
  | Some cu => if ((128 <=? code c) && (cu <? 128))%N then code c else cu
  end.

(** Value of a digit in a radix (10 or 16), as [parseInt] reads it. *)
Definition digit_value (radix : Z) (c : ascii) : option Z :=
  let n := Z.of_N (code c) in
  let v := if is_digit c then Some (n - 48)
           else if is_lower c then Some (n - 97 + 10)
           else if is_upper c then Some (n - 65 + 10)
           else None in
  match v with
  | Some d => if d <? radix then Some d else None
  | None => None
  end.

End Char.

(** ** Strings *)

Module Str.

Fixpoint all (p : ascii -> bool) (s : string) : bool :=
  match s with
  | EmptyString => true
  | String c s' => p c && all p s'
  end.

Fixpoint map (f : ascii -> ascii) (s : string) : string :=
  match s with
  | EmptyString => EmptyString
  | String c s' => String (f c) (map f s')
  end.

(** [String.prototype.toLowerCase] *)
Definition toLowerCase (s : string) : string := map Char.toLowerCase s.

Fixpoint trimStart (s : string) : string :=
  match s with
  | EmptyString => EmptyString
  | String c s' => if Char.is_space c then trimStart s' else s
  end.

Fixpoint trimEnd (s : string) : string :=
  match s with
  | EmptyString => EmptyString
  | String c s' =>
      match trimEnd s' with
      | EmptyString => if Char.is_space c then EmptyString else String c EmptyString
      | t => String c t
      end
  end.

(** [String.prototype.trim] *)
Definition trim (s : string) : string := trimEnd (trimStart s).

(** Truthiness of a string: the empty string is the only falsy one. *)
Definition truthy (s : string) : bool :=
  match s with EmptyString => false | _ => true end.

(** [s.split(sep)] for a one-character separator. *)
Fixpoint split (sep : ascii) (s : string) : list string :=
  match s with
  | EmptyString => [EmptyString]
  | String c s' =>
      if Ascii.eqb c sep then EmptyString :: split sep s'
      else match split sep s' with
           | h :: t => String c h :: t
           | [] => [String c EmptyString]
           end
  end.

(** [s.replace(a, b)] for one-character strings [a] and [b]: only the
    first occurrence is replaced. *)
Fixpoint replaceFirst (a b : ascii) (s : string) : string :=
  match s with
  | EmptyString => EmptyString
  | String c s' =>
      if Ascii.eqb c a then String b s' else String c (replaceFirst a b s')
  end.

(** [s.replace(/\b\w/g, l => l.toUpperCase())]: every word character that
    does not follow a word character is a match, and is replaced by its
    upper case; [prev] tells whether the character before is a word
    character.  A word character is ASCII, so its upper case is again one
    character. *)
Fixpoint capitalizeWords (prev : bool) (s : string) : string :=
  match s with
  | EmptyString => EmptyString
  | String c s' =>
      let c' := if Char.is_word c && negb prev
                then match Char.toUpperCase c with
                     | Some n => ascii_of_N n
                     | None => c
                     end
                else c in
      String c' (capitalizeWords (Char.is_word c) s')
  end.

End Str.

(** ** Numbers: [parseInt] *)

Module Num.

(** The longest prefix of digits of the radix, read left to right;
    [None] when there is no digit at all. *)
Fixpoint digits (radix : Z) (acc : option Z) (s : string) : option Z :=
  match s with
  | EmptyString => acc
  | String c s' =>
      match Char.digit_value radix c with
      | Some d =>
          digits radix (Some (radix * (match acc with Some a => a | None => 0 end) + d)) s'
      | None => acc
      end
  end.

(** [parseInt(s)] without a radix argument: leading white space is
    skipped, then an optional sign, then [0x] or [0X] selects radix 16. *)
Definition parseInt (s : string) : option Z :=
  let s1 := Str.trimStart s in
  let '(sign, s2) :=
    match s1 with
    | String c r =>
        if Ascii.eqb c "-" then (-1, r)
        else if Ascii.eqb c "+" then (1, r)
        else (1, s1)
    | EmptyString => (1, s1)
    end in
  let '(radix, s3) :=
    match s2 with
    | String c0 (String c1 r) =>
        if Ascii.eqb c0 "0" && (Ascii.eqb c1 "x" || Ascii.eqb c1 "X")
        then (16, r) else (10, s2)
    | _ => (10, s2)
    end in
  match digits radix None s3 with
  | Some n => Some (sign * n)
  | None => None
  end.

(** [isNaN(n) || n < lo || n > hi] *)
Definition nan_or_outside (lo hi : Z) (n : option Z) : bool :=
  match n with
  | None => true
  | Some v => (v <? lo) || (hi <? v)
  end.

(** [n > bound]; false on [NaN]. *)
Definition gt (n : option Z) (bound : Z) : bool :=
  match n with
  | None => false
  | Some v => bound <? v
  end.

End Num.

(** ** Regular expressions

    The patterns of the sources are all of the form [/^r$/] and are only
    tested for a match ([test], [match] against [null]): the result is
    whether the whole string belongs to the language of [r].  A pattern is
    a term of [regex]; [test] decides membership by derivatives. *)

Module Regex.

Inductive regex : Type :=
| Never : regex
| Empty : regex
| Class : (ascii -> bool) -> regex
| Seq : regex -> regex -> regex
| Alt : regex -> regex -> regex
| Star : regex -> regex.

(** [r+] *)
Definition Plus (r : regex) : regex := Seq r (Star r).

(** [r{n}] *)
Fixpoint Times (n : nat) (r : regex) : regex :=
  match n with
  | O => Empty
  | S n' => Seq r (Times n' r)
  end.

(** [r{0,n}] *)
Fixpoint UpTo (n : nat) (r : regex) : regex :=
  match n with
  | O => Empty
  | S n' => Alt Empty (Seq r (UpTo n' r))
  end.

(** [r{lo,hi}] *)
Definition Between (lo hi : nat) (r : regex) : regex :=
  Seq (Times lo r) (UpTo (hi - lo) r).

(** A literal character. *)
Definition Chr (c : ascii) : regex := Class (Ascii.eqb c).

(** A literal character under the [/i] flag. *)
Definition ChrI (c : ascii) : regex :=
  Class (fun x => (Char.canonicalize x =? Char.canonicalize c)%N).

(** A literal word under the [/i] flag. *)
Fixpoint WordI (w : string) : regex :=
  match w with
  | EmptyString => Empty
  | String c w' => Seq (ChrI c) (WordI w')
  end.

Fixpoint nullable (r : regex) : bool :=
  match r with
  | Never => false
  | Empty => true
  | Class _ => false
  | Seq a b => nullable a && nullable b
  | Alt a b => nullable a || nullable b
  | Star _ => true
  end.

Fixpoint deriv (c : ascii) (r : regex) : regex :=
  match r with
  | Never => Never
  | Empty => Never
  | Class p => if p c then Empty else Never
  | Seq a b =>
      if nullable a then Alt (Seq (deriv c a) b) (deriv c b)
      else Seq (deriv c a) b
  | Alt a b => Alt (deriv c a) (deriv c b)
  | Star a => Seq (deriv c a) (Star a)
  end.

(** [/^r$/.test(s)] *)
Fixpoint test (r : regex) (s : string) : bool :=
  match s with
  | EmptyString => nullable r
  | String c s' => test (deriv c r) s'
  end.

(** The language of a pattern. *)
Inductive lang : regex -> string -> Prop :=
| lang_empty : lang Empty ""
| lang_class p c : p c = true -> lang (Class p) (String c "")
| lang_seq a b s t : lang a s -> lang b t -> lang (Seq a b) (s +:+ t)
| lang_alt_l a b s : lang a s -> lang (Alt a b) s
| lang_alt_r a b s : lang b s -> lang (Alt a b) s
| lang_star_nil a : lang (Star a) ""
| lang_star_cons a s t : lang a s -> lang (Star a) t -> lang (Star a) (s +:+ t).

End Regex.

(** ** The circuit record ([src/pages/Index.tsx]) *)

Record Circuit : Type := mkCircuit {
  circuit_id : string;
  client_name : string;
  client_ip : string;
  subnet : string;
  dns : string;
  vlan : string;
  bandwidth : string;
  location : string;
  mux_id : string;
  port_id : string;
  last_updated : string
}.

(** [keyof Circuit] *)
Inductive CircuitKey : Type :=
| K_circuit_id | K_client_name | K_client_ip | K_subnet | K_dns | K_vlan
| K_bandwidth | K_location | K_mux_id | K_port_id | K_last_updated.

Definition key_name (k : CircuitKey) : string :=
  match k with
  | K_circuit_id => "circuit_id"
  | K_client_name => "client_name"
  | K_client_ip => "client_ip"
  | K_subnet => "subnet"
  | K_dns => "dns"
  | K_vlan => "vlan"
  | K_bandwidth => "bandwidth"
  | K_location => "location"
  | K_mux_id => "mux_id"
  | K_port_id => "port_id"
  | K_last_updated => "last_updated"
  end.

(** [c[k]] *)
Definition get (k : CircuitKey) (c : Circuit) : string :=
  match k with
  | K_circuit_id => circuit_id c
  | K_client_name => client_name c
  | K_client_ip => client_ip c
  | K_subnet => subnet c
  | K_dns => dns c
  | K_vlan => vlan c
  | K_bandwidth => bandwidth c
  | K_location => location c
  | K_mux_id => mux_id c
  | K_port_id => port_id c
  | K_last_updated => last_updated c
  end.

(** [{ ...c, [k]: v }] *)
Definition set (k : CircuitKey) (v : string) (c : Circuit) : Circuit :=
  match k with
  | K_circuit_id => mkCircuit v (client_name c) (client_ip c) (subnet c) (dns c) (vlan c) (bandwidth c) (location c) (mux_id c) (port_id c) (last_updated c)
  | K_client_name => mkCircuit (circuit_id c) v (client_ip c) (subnet c) (dns c) (vlan c) (bandwidth c) (location c) (mux_id c) (port_id c) (last_updated c)
  | K_client_ip => mkCircuit (circuit_id c) (client_name c) v (subnet c) (dns c) (vlan c) (bandwidth c) (location c) (mux_id c) (port_id c) (last_updated c)
  | K_subnet => mkCircuit (circuit_id c) (client_name c) (client_ip c) v (dns c) (vlan c) (bandwidth c) (location c) (mux_id c) (port_id c) (last_updated c)
  | K_dns => mkCircuit (circuit_id c) (client_name c) (client_ip c) (subnet c) v (vlan c) (bandwidth c) (location c) (mux_id c) (port_id c) (last_updated c)
  | K_vlan => mkCircuit (circuit_id c) (client_name c) (client_ip c) (subnet c) (dns c) v (bandwidth c) (location c) (mux_id c) (port_id c) (last_updated c)
  | K_bandwidth => mkCircuit (circuit_id c) (client_name c) (client_ip c) (subnet c) (dns c) (vlan c) v (location c) (mux_id c) (port_id c) (last_updated c)
  | K_location => mkCircuit (circuit_id c) (client_name c) (client_ip c) (subnet c) (dns c) (vlan c) (bandwidth c) v (mux_id c) (port_id c) (last_updated c)
  | K_mux_id => mkCircuit (circuit_id c) (client_name c) (client_ip c) (subnet c) (dns c) (vlan c) (bandwidth c) (location c) v (port_id c) (last_updated c)
  | K_port_id => mkCircuit (circuit_id c) (client_name c) (client_ip c) (subnet c) (dns c) (vlan c) (bandwidth c) (location c) (mux_id c) v (last_updated c)
  | K_last_updated => mkCircuit (circuit_id c) (client_name c) (client_ip c) (subnet c) (dns c) (vlan c) (bandwidth c) (location c) (mux_id c) (port_id c) v
  end.

(** The one pattern of the three address fields:
    [/^(\d{1,3}\.){3}\d{1,3}$/]. *)
Definition dottedQuad : Regex.regex :=
  let group := Regex.Between 1 3 (Regex.Class Char.is_digit) in
  Regex.Seq (Regex.Times 3 (Regex.Seq group (Regex.Chr "."))) group.

(** The three address fields are tested against constants of their own,
    all with that pattern. *)
Definition ipRegex : Regex.regex := dottedQuad.
Definition subnetRegex : Regex.regex := dottedQuad.
Definition dnsRegex : Regex.regex := dottedQuad.

(** [/^\d+\s*(Mbps|Gbps|Kbps)$/i] *)
Definition bandwidthRegex : Regex.regex :=
  Regex.Seq (Regex.Plus (Regex.Class Char.is_digit))
    (Regex.Seq (Regex.Star (Regex.Class Char.is_space))
       (Regex.Alt (Regex.Alt (Regex.WordI "Mbps") (Regex.WordI "Gbps"))
          (Regex.WordI "Kbps"))).

(** [value.length < n] *)
Definition shorter (value : string) (n : nat) : bool :=
  Nat.ltb (String.length value) n.

(** ** Registration ([src/components/ClientRegistration.tsx]) *)

Module Registration.

(** The form state: ten fields, all free text. *)
Record FormData : Type := mkFormData {
  f_circuit_id : string;
  f_client_name : string;
  f_client_ip : string;
  f_subnet : string;
  f_dns : string;
  f_vlan : string;
  f_bandwidth : string;
  f_location : string;
  f_mux_id : string;
  f_port_id : string
}.

(** [Object.entries(formData)], in the order of the object literal. *)
Definition entries (fd : FormData) : list (string * string) :=
  [ ("circuit_id", f_circuit_id fd);
    ("client_name", f_client_name fd);
    ("client_ip", f_client_ip fd);
    ("subnet", f_subnet fd);
    ("dns", f_dns fd);
    ("vlan", f_vlan fd);
    ("bandwidth", f_bandwidth fd);
    ("location", f_location fd);
    ("mux_id", f_mux_id fd);
    ("port_id", f_port_id fd) ].

Definition validateField (field value : string) : string :=
  if String.eqb field "circuit_id" then
    if shorter value 3 then "Circuit ID must be at least 3 characters" else ""
  else if String.eqb field "client_name" then
    if shorter value 2 then "Client name must be at least 2 characters" else ""
  else if String.eqb field "client_ip" then
    if negb (Regex.test ipRegex value) then "Invalid IP address format" else ""
  else if String.eqb field "subnet" then
    if negb (Regex.test subnetRegex value) then "Invalid subnet mask format" else ""
  else if String.eqb field "dns" then
    if negb (Regex.test dnsRegex value) then "Invalid DNS server format" else ""
  else if String.eqb field "vlan" then
    let vlanNum := Num.parseInt value in
    if Num.nan_or_outside 1 4094 vlanNum then "VLAN must be between 1-4094" else ""
  else if String.eqb field "bandwidth" then
    if negb (Regex.test bandwidthRegex value)
    then "Bandwidth must include unit (e.g., 100 Mbps, 1 Gbps)" else ""
  else if String.eqb field "location" then
    if shorter value 3 then "Location must be at least 3 characters" else ""
  else if String.eqb field "mux_id" then
    if shorter value 3 then "MUX ID must be at least 3 characters" else ""
  else if String.eqb field "port_id" then
    if shorter value 3 then "Port ID must be at least 3 characters" else ""
  else "".

(** The label of the blank check:
    [field.replace('_', ' ').replace(/\b\w/g, l => l.toUpperCase())]. *)
Definition fieldLabel (field : string) : string :=
  Str.capitalizeWords false (Str.replaceFirst "_" " " field).

Definition requiredMessage (field : string) : string :=
  fieldLabel field +:+ " is required".

(** The body of the [forEach] of [handleSubmit] on one entry.  The
    validator is an argument, so that it can be said of a branch that it
    does not consult it; [handleSubmit] passes [validateField]. *)
Definition checkEntry (validate : string -> string -> string)
    (newErrors : gmap string string) (entry : string * string)
    : gmap string string :=
  let '(field, value) := entry in
  if negb (Str.truthy (Str.trim value)) then
    <[field := requiredMessage field]> newErrors
  else
    let error := validate field value in
    if Str.truthy error then <[field := error]> newErrors else newErrors.

Definition collectErrorsWith (validate : string -> string -> string)
    (fd : FormData) : gmap string string :=
  foldl (checkEntry validate) ∅ (entries fd).

Definition collectErrors (fd : FormData) : gmap string string :=
  collectErrorsWith validateField fd.

(** [{ ...formData, last_updated: now }] *)
Definition newCircuit (fd : FormData) (now : string) : Circuit :=
  {| circuit_id := f_circuit_id fd;
     client_name := f_client_name fd;
     client_ip := f_client_ip fd;
     subnet := f_subnet fd;
     dns := f_dns fd;
     vlan := f_vlan fd;
     bandwidth := f_bandwidth fd;
     location := f_location fd;
     mux_id := f_mux_id fd;
     port_id := f_port_id fd;
     last_updated := now |}.

Record State : Type := mkState {
  formData : FormData;
  loading : bool;
  success : bool;
  errors : gmap string string
}.

(** The closures handed to [setTimeout]: the one of [handleSubmit], which
    captured the form data, and the one it schedules in turn. *)
Inductive Timer : Type :=
| SubmitTimer (captured : FormData)
| RedirectTimer.

Inductive Effect : Type :=
| SetTimeout (ms : Z) (t : Timer)
| OnRegister (c : Circuit)
| OnBack.

Definition initial : State :=
  {| formData := mkFormData "" "" "" "" "" "" "" "" "" "";
     loading := false; success := false; errors := ∅ |}.

Definition handleSubmit (st : State) : State * list Effect :=
  let newErrors := collectErrors (formData st) in
  if Nat.ltb 0 (size newErrors) then
    ({| formData := formData st; loading := loading st;
        success := success st; errors := newErrors |}, [])
  else
    ({| formData := formData st; loading := true;
        success := success st; errors := errors st |},
     [SetTimeout 1000 (SubmitTimer (formData st))]).

(** A timer fires; [now] is [new Date().toLocaleString()] at that time. *)
Definition fire (t : Timer) (now : string) (st : State) : State * list Effect :=
  match t with
  | SubmitTimer captured =>
      ({| formData := formData st; loading := false;
          success := true; errors := errors st |},
       [OnRegister (newCircuit captured now); SetTimeout 2000 RedirectTimer])
  | RedirectTimer =>
      ({| formData := formData st; loading := loading st;
          success := false; errors := errors st |}, [OnBack])
  end.

End Registration.

(** ** Details and editing ([src/components/CircuitDetails.tsx]) *)

Module Details.

Definition validateField (field value : string) : string :=
  if String.eqb field "client_ip" then
    if negb (Regex.test ipRegex value) then "Invalid IP address format"
    else
      let parts := Str.split "." value in
      if existsb (fun part => Num.gt (Num.parseInt part) 255) parts
      then "IP address octets must be 0-255" else ""
  else if String.eqb field "subnet" then
    if negb (Regex.test subnetRegex value) then "Invalid subnet mask format"
    else
      let subnetParts := Str.split "." value in
      if existsb (fun part => Num.gt (Num.parseInt part) 255) subnetParts
      then "Subnet mask octets must be 0-255" else ""
  else if String.eqb field "dns" then
    if negb (Regex.test dnsRegex value) then "Invalid DNS server format"
    else
      let dnsParts := Str.split "." value in
      if existsb (fun part => Num.gt (Num.parseInt part) 255) dnsParts
      then "DNS server octets must be 0-255" else ""
  else if String.eqb field "vlan" then
    let vlanNum := Num.parseInt value in
    if Num.nan_or_outside 1 4094 vlanNum then "VLAN must be between 1-4094" else ""
  else if String.eqb field "bandwidth" then
    if negb (Regex.test bandwidthRegex value)
    then "Bandwidth must include unit (e.g., 100 Mbps, 1 Gbps)" else ""
  else if String.eqb field "client_name" then
    if shorter value 2 then "Client name must be at least 2 characters" else ""
  else "".

Record State : Type := mkState {
  isEditing : bool;
  editedCircuit : option Circuit;
  loading : bool;
  success : bool;
  errors : gmap string string
}.

(** The state at mount: [useState(circuit)] for the editable copy. *)
Definition initial (circuit : Circuit) : State :=
  {| isEditing := false; editedCircuit := Some circuit;
     loading := false; success := false; errors := ∅ |}.

Inductive Timer : Type :=
| SaveTimer (captured : Circuit)
| ClearSuccessTimer.

Inductive Effect : Type :=
| SetTimeout (ms : Z) (t : Timer)
| OnUpdate (c : Circuit).

(** [handleEdit]; [circuit] is the prop. *)
Definition handleEdit (circuit : Circuit) (st : State) : State :=
  {| isEditing := true; editedCircuit := Some circuit;
     loading := loading st; success := false; errors := ∅ |}.

Definition handleCancel (circuit : Circuit) (st : State) : State :=
  {| isEditing := false; editedCircuit := Some circuit;
     loading := loading st; success := success st; errors := ∅ |}.

Definition editableFields : list CircuitKey :=
  [K_client_name; K_vlan; K_bandwidth; K_location; K_mux_id; K_port_id;
   K_client_ip; K_subnet; K_dns].

(** The body of the [forEach] of [handleSave] on one field. *)
Definition checkField (edited : Circuit) (newErrors : gmap string string)
    (field : CircuitKey) : gmap string string :=
  let error := validateField (key_name field) (get field edited) in
  if Str.truthy error then <[key_name field := error]> newErrors else newErrors.

Definition collectErrors (edited : Circuit) : gmap string string :=
  foldl (checkField edited) ∅ editableFields.

Definition handleSave (st : State) : State * list Effect :=
  match editedCircuit st with
  | None => (st, [])
  | Some edited =>
      let newErrors := collectErrors edited in
      if Nat.ltb 0 (size newErrors) then
        ({| isEditing := isEditing st; editedCircuit := editedCircuit st;
            loading := loading st; success := success st;
            errors := newErrors |}, [])
      else
        ({| isEditing := isEditing st; editedCircuit := editedCircuit st;
            loading := true; success := success st;
            errors := errors st |},
         [SetTimeout 1000 (SaveTimer edited)])
  end.

(** [{ ...editedCircuit, last_updated: now }] *)
Definition updatedCircuit (edited : Circuit) (now : string) : Circuit :=
  set K_last_updated now edited.

Definition fire (t : Timer) (now : string) (st : State) : State * list Effect :=
  match t with
  | SaveTimer captured =>
      ({| isEditing := false; editedCircuit := editedCircuit st;
          loading := false; success := true; errors := errors st |},
       [OnUpdate (updatedCircuit captured now);
        SetTimeout 3000 ClearSuccessTimer])
  | ClearSuccessTimer =>
      ({| isEditing := isEditing st; editedCircuit := editedCircuit st;
          loading := loading st; success := false; errors := errors st |}, [])
  end.

(** [errors[field]] as a condition. *)
Definition hasError (errs : gmap string string) (field : string) : bool :=
  match errs !! field with
  | Some e => Str.truthy e
  | None => false
  end.

Definition handleFieldChange (field : CircuitKey) (value : string)
    (st : State) : State :=
  match editedCircuit st with
  | None => st
  | Some edited =>
      {| isEditing := isEditing st;
         editedCircuit := Some (set field value edited);
         loading := loading st; success := success st;
         errors := if hasError (errors st) (key_name field)
                   then <[key_name field := ""]> (errors st)
                   else errors st |}
  end.

(** The fields that the page renders through [renderField]; each becomes
    an input while editing.  [circuit_id] and [last_updated] are shown as
    text only. *)
Definition renderedFields : list CircuitKey :=
  [K_client_name; K_vlan; K_bandwidth; K_location;
   K_client_ip; K_subnet; K_dns; K_mux_id; K_port_id].

Definition key_eqb (a b : CircuitKey) : bool :=
  String.eqb (key_name a) (key_name b).

(** The mounted component: the [circuit] prop (the parent passes
    [setSelectedCircuit] as [onUpdate], so a call of [onUpdate] replaces
    the prop), the state, the pending timers and the records handed to
    [onUpdate] so far. *)
Record World : Type := mkWorld {
  circuit : Circuit;
  state : State;
  timers : list Timer;
  updates : list Circuit
}.

Definition mount (c : Circuit) : World :=
  {| circuit := c; state := initial c; timers := []; updates := [] |}.

Inductive Event : Type :=
| ClickEdit
| ClickCancel
| ClickSave
| Input (field : CircuitKey) (value : string)
| Fire (n : nat) (now : string).

Fixpoint applyEffects (effs : list Effect) (w : World) : World :=
  match effs with
  | [] => w
  | SetTimeout _ t :: rest =>
      applyEffects rest
        {| circuit := circuit w; state := state w;
           timers := timers w ++ [t]; updates := updates w |}
  | OnUpdate c :: rest =>
      applyEffects rest
        {| circuit := c; state := state w;
           timers := timers w; updates := updates w ++ [c] |}
  end.

Definition withState (w : World) (st : State) : World :=
  {| circuit := circuit w; state := st; timers := timers w; updates := updates w |}.

(** One event.  The guards are those of the page: the Edit button is
    shown when not editing, Cancel and Save when editing, Save is disabled
    while loading, inputs exist while editing for the rendered fields.  An
    event whose control is absent does nothing. *)
Definition step (w : World) (e : Event) : World :=
  let st := state w in
  match e with
  | ClickEdit =>
      if isEditing st then w else withState w (handleEdit (circuit w) st)
  | ClickCancel =>
      if isEditing st then withState w (handleCancel (circuit w) st) else w
  | ClickSave =>
      if isEditing st && negb (loading st) then
        let '(st', effs) := handleSave st in applyEffects effs (withState w st')
      else w
  | Input field value =>
      if isEditing st && existsb (key_eqb field) renderedFields
      then withState w (handleFieldChange field value st) else w
  | Fire n now =>
      match nth_error (timers w) n with
      | None => w
      | Some t =>
          let '(st', effs) := fire t now st in
          applyEffects effs
            {| circuit := circuit w; state := st';
               timers := firstn n (timers w) ++ skipn (S n) (timers w);
               updates := updates w |}
      end
  end.

Definition run (w : World) (es : list Event) : World := foldl step w es.

End Details.

(** ** Lookup ([src/components/CircuitSearch.tsx]) *)

Module Search.

Definition mockCircuits : list Circuit :=
  [ {| circuit_id := "CKT-001-NYC";
       client_name := "TechCorp Solutions";
       client_ip := "192.168.1.100";
       subnet := "255.255.255.0";
       dns := "8.8.8.8";
       vlan := "100";
       bandwidth := "1 Gbps";
       location := "New York Data Center";
       mux_id := "MUX-NYC-01";
       port_id := "Port-24";
       last_updated := "2024-06-14 10:30:00" |};
    {| circuit_id := "CKT-002-LAX";
       client_name := "Global Enterprises Inc";
       client_ip := "10.0.0.50";
       subnet := "255.255.0.0";
       dns := "1.1.1.1";
       vlan := "200";
       bandwidth := "500 Mbps";
       location := "Los Angeles Data Center";
       mux_id := "MUX-LAX-03";
       port_id := "Port-12";
       last_updated := "2024-06-13 15:45:00" |};
    {| circuit_id := "CKT-003-CHI";
       client_name := "Metro Networks LLC";
       client_ip := "172.16.10.25";
       subnet := "255.255.255.128";
       dns := "8.8.4.4";
       vlan := "150";
       bandwidth := "2 Gbps";
       location := "Chicago Data Center";
       mux_id := "MUX-CHI-02";
       port_id := "Port-08";
       last_updated := "2024-06-14 09:15:00" |} ].

Record State : Type := mkState {
  circuitId : string;
  loading : bool;
  error : string
}.

Inductive Timer : Type :=
| SearchTimer (captured : string).

Inductive Effect : Type :=
| SetTimeout (ms : Z) (t : Timer)
| OnCircuitSelect (c : Circuit).

Definition quote : string := String "034"%char EmptyString.

(** The template [Circuit ID "${circuitId}" not found in the system]. *)
Definition notFoundMessage (circuitId : string) : string :=
  "Circuit ID " +:+ quote +:+ circuitId +:+ quote +:+ " not found in the system".

Definition handleSearch (st : State) : State * list Effect :=
  if negb (Str.truthy (Str.trim (circuitId st))) then
    ({| circuitId := circuitId st; loading := loading st;
        error := "Please enter a Circuit ID" |}, [])
  else
    ({| circuitId := circuitId st; loading := true; error := "" |},
     [SetTimeout 800 (SearchTimer (circuitId st))]).

(** The predicate of [find]. *)
Definition sameId (query : string) (c : Circuit) : bool :=
  String.eqb (Str.toLowerCase (circuit_id c)) (Str.toLowerCase query).

Definition fire (t : Timer) (st : State) : State * list Effect :=
  match t with
  | SearchTimer captured =>
      match find (sameId captured) mockCircuits with
      | Some c =>
          ({| circuitId := circuitId st; loading := false;
              error := error st |}, [OnCircuitSelect c])
      | None =>
          ({| circuitId := circuitId st; loading := false;
              error := notFoundMessage captured |}, [])
      end
  end.

(** A whole lookup of [query]: the submit handler, then its timer. *)
Inductive Outcome : Type :=
| Refused (message : string)
| Selected (c : Circuit)
| NotFound (message : string).

Definition lookup (query : string) : Outcome :=
  let st0 := {| circuitId := query; loading := false; error := "" |} in
  match handleSearch st0 with
  | (st1, SetTimeout _ t :: _) =>
      match fire t st1 with
      | (_, OnCircuitSelect c :: _) => Selected c
      | (st2, _) => NotFound (error st2)
      end
  | (st1, _) => Refused (error st1)
  end.

End Search.

(** ** Vocabulary of the specification

    The words the specification uses for its inputs, as definitions of
    their own (they are not taken from the sources). *)

(** A group of a dotted quad: one to three digits. *)
Definition isGroup (g : string) : bool :=
  Str.all Char.is_digit g
  && Nat.leb 1 (String.length g) && Nat.leb (String.length g) 3.

(** The string made of four groups separated by dots. *)
Definition dotted (g1 g2 g3 g4 : string) : string :=
  g1 +:+ "." +:+ g2 +:+ "." +:+ g3 +:+ "." +:+ g4.

(** The integer value of a string of decimal digits. *)
Fixpoint decimalFrom (acc : Z) (s : string) : Z :=
  match s with
  | EmptyString => acc
  | String c s' => decimalFrom (10 * acc + (Z.of_N (Char.code c) - 48)) s'
  end.

Definition decimal (s : string) : Z := decimalFrom 0 s.


(** A bandwidth unit, compared without regard to case. *)
Definition isUnit (u : string) : bool :=
  let l := Str.toLowerCase u in
  String.eqb l "kbps" || String.eqb l "mbps" || String.eqb l "gbps".

(** Digits, optional white space, unit. *)
Definition bandwidthShape (v : string) : Prop :=
  exists ds ws u,
    v = ds +:+ ws +:+ u /\
    ds <> "" /\ Str.all Char.is_digit ds = true /\
    Str.all Char.is_space ws = true /\
    isUnit u = true.

(** The field name of the blank-check message, by the words of the
    specification: every underscore becomes a space, and the first letter
    of each word is put in upper case. *)
Fixpoint underscoresToSpaces (s : string) : string :=
  match s with
  | EmptyString => EmptyString
  | String c s' =>
      String (if Ascii.eqb c "_" then " "%char else c) (underscoresToSpaces s')
  end.

Fixpoint upperFirstOfWords (start : bool) (s : string) : string :=
  match s with
  | EmptyString => EmptyString
  | String c s' =>
      String (if start && Char.is_lower c
              then ascii_of_N (Char.code c - 32) else c)
        (upperFirstOfWords (Ascii.eqb c " ") s')
  end.

Definition specFieldName (key : string) : string :=
  upperFirstOfWords true (underscoresToSpaces key).

(** The messages of the edit path on an address field. *)
Definition shapeError (field : string) : string :=
  if String.eqb field "client_ip" then "Invalid IP address format"
  else if String.eqb field "subnet" then "Invalid subnet mask format"
  else "Invalid DNS server format".

Definition octetError (field : string) : string :=
  if String.eqb field "client_ip" then "IP address octets must be 0-255"
  else if String.eqb field "subnet" then "Subnet mask octets must be 0-255"
  else "DNS server octets must be 0-255".

Definition addressFields : list string := ["client_ip"; "subnet"; "dns"].

(** ** Auxiliary definitions for the proofs *)

(** Two strings of the same length whose characters fold to the same
    character under [/i]. *)
Fixpoint sameFold (w u : string) : bool :=
  match w, u with
  | EmptyString, EmptyString => true
  | String a w', String b u' =>
      (Char.canonicalize b =? Char.canonicalize a)%N && sameFold w' u'
  | _, _ => false
  end.

Ltac each_char c := destruct c as [[] [] [] [] [] [] [] []].

(** An event of the user, as opposed to a timer that fires. *)
Definition userEvent (e : Details.Event) : Prop :=
  match e with
  | Details.Fire _ _ => False
  | _ => True
  end.

(** While record [c] is shown and no timer fires: the prop and the records
    handed out stay the same, and out of edit mode the editable copy is
    [c] and there are no field errors. *)
Definition atRest (c : Circuit) (ups : list Circuit) (w : Details.World) : Prop :=
  Details.circuit w = c /\
  Details.updates w = ups /\
  (Details.isEditing (Details.state w) = false ->
   Details.editedCircuit (Details.state w) = Some c /\
   Details.errors (Details.state w) = ∅).

(** Every record of the edit flow carries the identifier [id]: the prop,
    the editable copy, the records captured by pending save timers and the
    records handed to [onUpdate]. *)
Definition sameIdentity (id : string) (w : Details.World) : Prop :=
  circuit_id (Details.circuit w) = id /\
  (forall e, Details.editedCircuit (Details.state w) = Some e -> circuit_id e = id) /\
  Forall (fun t => match t with
                   | Details.SaveTimer captured => circuit_id captured = id
                   | Details.ClearSuccessTimer => True
                   end) (Details.timers w) /\
  Forall (fun r => circuit_id r = id) (Details.updates w).


(** ** The registration page as a whole
    ([src/components/ClientRegistration.tsx]) *)

Module ClientRegistration.

(** The keys of the form state; [renderField] is called with these ten
    string literals and with no other. *)
Inductive FormKey : Type :=
| F_circuit_id | F_client_name | F_client_ip | F_subnet | F_dns | F_vlan
| F_bandwidth | F_location | F_mux_id | F_port_id.

Definition fieldName (k : FormKey) : string :=
  match k with
  | F_circuit_id => "circuit_id"
  | F_client_name => "client_name"
  | F_client_ip => "client_ip"
  | F_subnet => "subnet"
  | F_dns => "dns"
  | F_vlan => "vlan"
  | F_bandwidth => "bandwidth"
  | F_location => "location"
  | F_mux_id => "mux_id"
  | F_port_id => "port_id"
  end.

(** [formData[field]] *)
Definition getField (k : FormKey) (fd : Registration.FormData) : string :=
  match k with
  | F_circuit_id => Registration.f_circuit_id fd
  | F_client_name => Registration.f_client_name fd
  | F_client_ip => Registration.f_client_ip fd
  | F_subnet => Registration.f_subnet fd
  | F_dns => Registration.f_dns fd
  | F_vlan => Registration.f_vlan fd
  | F_bandwidth => Registration.f_bandwidth fd
  | F_location => Registration.f_location fd
  | F_mux_id => Registration.f_mux_id fd
  | F_port_id => Registration.f_port_id fd
  end.

(** [{ ...formData, [field]: value }] *)
Definition setField (k : FormKey) (v : string) (fd : Registration.FormData)
    : Registration.FormData :=
  let g := fun k' => getField k' fd in
  match k with
  | F_circuit_id => Registration.mkFormData v (g F_client_name) (g F_client_ip) (g F_subnet) (g F_dns) (g F_vlan) (g F_bandwidth) (g F_location) (g F_mux_id) (g F_port_id)
  | F_client_name => Registration.mkFormData (g F_circuit_id) v (g F_client_ip) (g F_subnet) (g F_dns) (g F_vlan) (g F_bandwidth) (g F_location) (g F_mux_id) (g F_port_id)
  | F_client_ip => Registration.mkFormData (g F_circuit_id) (g F_client_name) v (g F_subnet) (g F_dns) (g F_vlan) (g F_bandwidth) (g F_location) (g F_mux_id) (g F_port_id)
  | F_subnet => Registration.mkFormData (g F_circuit_id) (g F_client_name) (g F_client_ip) v (g F_dns) (g F_vlan) (g F_bandwidth) (g F_location) (g F_mux_id) (g F_port_id)
  | F_dns => Registration.mkFormData (g F_circuit_id) (g F_client_name) (g F_client_ip) (g F_subnet) v (g F_vlan) (g F_bandwidth) (g F_location) (g F_mux_id) (g F_port_id)
  | F_vlan => Registration.mkFormData (g F_circuit_id) (g F_client_name) (g F_client_ip) (g F_subnet) (g F_dns) v (g F_bandwidth) (g F_location) (g F_mux_id) (g F_port_id)
  | F_bandwidth => Registration.mkFormData (g F_circuit_id) (g F_client_name) (g F_client_ip) (g F_subnet) (g F_dns) (g F_vlan) v (g F_location) (g F_mux_id) (g F_port_id)
  | F_location => Registration.mkFormData (g F_circuit_id) (g F_client_name) (g F_client_ip) (g F_subnet) (g F_dns) (g F_vlan) (g F_bandwidth) v (g F_mux_id) (g F_port_id)
  | F_mux_id => Registration.mkFormData (g F_circuit_id) (g F_client_name) (g F_client_ip) (g F_subnet) (g F_dns) (g F_vlan) (g F_bandwidth) (g F_location) v (g F_port_id)
  | F_port_id => Registration.mkFormData (g F_circuit_id) (g F_client_name) (g F_client_ip) (g F_subnet) (g F_dns) (g F_vlan) (g F_bandwidth) (g F_location) (g F_mux_id) v
  end.

Definition handleFieldChange (field : FormKey) (value : string)
    (st : Registration.State) : Registration.State :=
  {| Registration.formData := setField field value (Registration.formData st);
     Registration.loading := Registration.loading st;
     Registration.success := Registration.success st;
     Registration.errors :=
       if Details.hasError (Registration.errors st) (fieldName field)
       then <[fieldName field := ""]> (Registration.errors st)
       else Registration.errors st |}.

(** The mounted component: its state, the pending timers, the records
    handed to [onRegister] and the number of calls of [onBack]. *)
Record World : Type := mkWorld {
  state : Registration.State;
  timers : list Registration.Timer;
  registered : list Circuit;
  backs : nat
}.

Definition start : World :=
  {| state := Registration.initial; timers := []; registered := []; backs := 0 |}.

Inductive Event : Type :=
| Input (field : FormKey) (value : string)
| Submit
| Fire (n : nat) (now : string).

Fixpoint applyEffects (effs : list Registration.Effect) (w : World) : World :=
  match effs with
  | [] => w
  | Registration.SetTimeout _ t :: rest =>
      applyEffects rest
        {| state := state w; timers := timers w ++ [t];
           registered := registered w; backs := backs w |}
  | Registration.OnRegister c :: rest =>
      applyEffects rest
        {| state := state w; timers := timers w;
           registered := registered w ++ [c]; backs := backs w |}
  | Registration.OnBack :: rest =>
      applyEffects rest
        {| state := state w; timers := timers w;
           registered := registered w; backs := S (backs w) |}
  end.

Definition withState (w : World) (st : Registration.State) : World :=
  {| state := st; timers := timers w;
     registered := registered w; backs := backs w |}.

(** One event.  While [success] is set the page shows the notice instead
    of the form, so there is nothing to type in or to submit; the submit
    button is disabled while loading (the inputs are not). *)
Definition step (w : World) (e : Event) : World :=
  let st := state w in
  match e with
  | Input field value =>
      if Registration.success st then w
      else withState w (handleFieldChange field value st)
  | Submit =>
      if negb (Registration.success st) && negb (Registration.loading st) then
        let '(st', effs) := Registration.handleSubmit st in
        applyEffects effs (withState w st')
      else w
  | Fire n now =>
      match nth_error (timers w) n with
      | None => w
      | Some t =>
          let '(st', effs) := Registration.fire t now st in
          applyEffects effs
            {| state := st';
               timers := firstn n (timers w) ++ skipn (S n) (timers w);
               registered := registered w; backs := backs w |}
      end
  end.

Definition run (w : World) (es : list Event) : World := foldl step w es.

End ClientRegistration.

(** ** The login form ([src/components/LoginForm.tsx]) *)

Module Login.

Record State : Type := mkState {
  username : string;
  password : string;
  error : string;
  loading : bool
}.

Definition initial : State :=
  {| username := ""; password := ""; error := ""; loading := false |}.

(** The closure handed to [setTimeout], with what it captured. *)
Inductive Timer : Type :=
| AuthTimer (username password : string).

Inductive Effect : Type :=
| SetTimeout (ms : Z) (t : Timer)
| OnLogin (username : string).

Definition handleSubmit (st : State) : State * list Effect :=
  if negb (Str.truthy (Str.trim (username st)))
     || negb (Str.truthy (Str.trim (password st))) then
    ({| username := username st; password := password st;
        error := "Please enter both username and password";
        loading := loading st |}, [])
  else
    ({| username := username st; password := password st;
        error := ""; loading := true |},
     [SetTimeout 1000 (AuthTimer (username st) (password st))]).

Definition fire (t : Timer) (st : State) : State * list Effect :=
  match t with
  | AuthTimer u p =>
      if String.eqb u "admin" && String.eqb p "admin123" then
        ({| username := username st; password := password st;
            error := error st; loading := false |}, [OnLogin u])
      else
        ({| username := username st; password := password st;
            error := "Invalid username or password"; loading := false |}, [])
  end.

(** The mounted form: state, pending timers, the names handed to
    [onLogin]. *)
Record World : Type := mkWorld {
  state : State;
  timers : list Timer;
  logins : list string
}.

Definition start : World :=
  {| state := initial; timers := []; logins := [] |}.

Inductive Event : Type :=
| TypeUsername (value : string)
| TypePassword (value : string)
| Submit
| Fire (n : nat).

Fixpoint applyEffects (effs : list Effect) (w : World) : World :=
  match effs with
  | [] => w
  | SetTimeout _ t :: rest =>
      applyEffects rest
        {| state := state w; timers := timers w ++ [t]; logins := logins w |}
  | OnLogin u :: rest =>
      applyEffects rest
        {| state := state w; timers := timers w; logins := logins w ++ [u] |}
  end.

(** One event.  Both inputs and the button are disabled while loading. *)
Definition step (w : World) (e : Event) : World :=
  let st := state w in
  match e with
  | TypeUsername value =>
      if loading st then w
      else {| state := {| username := value; password := password st;
                          error := error st; loading := loading st |};
              timers := timers w; logins := logins w |}
  | TypePassword value =>
      if loading st then w
      else {| state := {| username := username st; password := value;
                          error := error st; loading := loading st |};
              timers := timers w; logins := logins w |}
  | Submit =>
      if loading st then w
      else
        let '(st', effs) := handleSubmit st in
        applyEffects effs
          {| state := st'; timers := timers w; logins := logins w |}
  | Fire n =>
      match nth_error (timers w) n with
      | None => w
      | Some t =>
          let '(st', effs) := fire t st in
          applyEffects effs
            {| state := st';
               timers := firstn n (timers w) ++ skipn (S n) (timers w);
               logins := logins w |}
      end
  end.

Definition run (w : World) (es : list Event) : World := foldl step w es.

End Login.

(** ** The page that holds the views ([src/pages/Index.tsx]) *)

Module Index.

Record User : Type := mkUser {
  username : string;
  role : string
}.

Inductive View : Type := search | details | register.

Record State : Type := mkState {
  user : option User;
  selectedCircuit : option Circuit;
  currentView : View
}.

Definition initial : State :=
  {| user := None; selectedCircuit := None; currentView := search |}.













End Index.

(** ** More vocabulary *)

(** A dotted quad: four groups of one to three digits. *)
Definition dottedShape (v : string) : Prop :=
  exists g1 g2 g3 g4,
    v = dotted g1 g2 g3 g4 /\
    isGroup g1 = true /\ isGroup g2 = true /\
    isGroup g3 = true /\ isGroup g4 = true.

(** A dotted quad whose four groups are at most 255. *)
Definition octetShape (v : string) : Prop :=
  exists g1 g2 g3 g4,
    v = dotted g1 g2 g3 g4 /\
    isGroup g1 = true /\ isGroup g2 = true /\
    isGroup g3 = true /\ isGroup g4 = true /\
    decimal g1 <= 255 /\ decimal g2 <= 255 /\
    decimal g3 <= 255 /\ decimal g4 <= 255.

(** [parseInt] reads an integer between 1 and 4094. *)
Definition vlanReadable (v : string) : Prop :=
  exists n, Num.parseInt v = Some n /\ 1 <= n <= 4094.

(** The form of a record: the record without [last_updated]. *)
Definition formOf (c : Circuit) : Registration.FormData :=
  {| Registration.f_circuit_id := circuit_id c;
     Registration.f_client_name := client_name c;
     Registration.f_client_ip := client_ip c;
     Registration.f_subnet := subnet c;
     Registration.f_dns := dns c;
     Registration.f_vlan := vlan c;
     Registration.f_bandwidth := bandwidth c;
     Registration.f_location := location c;
     Registration.f_mux_id := mux_id c;
     Registration.f_port_id := port_id c |}.

(** A form that registration lets through, field by field. *)
Definition registrable (fd : Registration.FormData) : Prop :=
  (Str.trim (Registration.f_circuit_id fd) <> "" /\
   (3 <= String.length (Registration.f_circuit_id fd))%nat) /\
  (Str.trim (Registration.f_client_name fd) <> "" /\
   (2 <= String.length (Registration.f_client_name fd))%nat) /\
  dottedShape (Registration.f_client_ip fd) /\
  dottedShape (Registration.f_subnet fd) /\
  dottedShape (Registration.f_dns fd) /\
  vlanReadable (Registration.f_vlan fd) /\
  bandwidthShape (Registration.f_bandwidth fd) /\
  (Str.trim (Registration.f_location fd) <> "" /\
   (3 <= String.length (Registration.f_location fd))%nat) /\
  (Str.trim (Registration.f_mux_id fd) <> "" /\
   (3 <= String.length (Registration.f_mux_id fd))%nat) /\
  (Str.trim (Registration.f_port_id fd) <> "" /\
   (3 <= String.length (Registration.f_port_id fd))%nat).

(** An editable copy that saving lets through, field by field. *)
Definition savable (c : Circuit) : Prop :=
  (2 <= String.length (client_name c))%nat /\
  vlanReadable (vlan c) /\
  bandwidthShape (bandwidth c) /\
  octetShape (client_ip c) /\
  octetShape (subnet c) /\
  octetShape (dns c).

Definition isSubmitTimer (t : Registration.Timer) : bool :=
  match t with
  | Registration.SubmitTimer _ => true
  | Registration.RedirectTimer => false
  end.

Definition isSaveTimer (t : Details.Timer) : bool :=
  match t with
  | Details.SaveTimer _ => true
  | Details.ClearSuccessTimer => false
  end.


(** * Properties *)

(** ** Strings *)

Lemma app_nil_l (s : string) : "" +:+ s = s.
Proof. reflexivity. Qed.

Lemma app_cons (c : ascii) (s t : string) :
  String c s +:+ t = String c (s +:+ t).
Proof. reflexivity. Qed.

Lemma app_nil_r (s : string) : s +:+ "" = s.
Proof. induction s as [|c s IH]; [reflexivity|]. rewrite app_cons, IH. reflexivity. Qed.

Lemma app_assoc (s t u : string) : (s +:+ t) +:+ u = s +:+ (t +:+ u).
Proof.
  induction s as [|c s IH]; [reflexivity|].
  rewrite !app_cons, IH. reflexivity.
Qed.

Lemma app_eq_nil (s t : string) : s +:+ t = "" -> s = "" /\ t = "".
Proof. destruct s; [rewrite app_nil_l; auto | rewrite app_cons; discriminate]. Qed.

Lemma app_length (s t : string) :
  String.length (s +:+ t) = (String.length s + String.length t)%nat.
Proof.
  induction s as [|c s IH]; [reflexivity|].
  rewrite app_cons. simpl. rewrite IH. reflexivity.
Qed.

Lemma all_app (p : ascii -> bool) (s t : string) :
  Str.all p (s +:+ t) = Str.all p s && Str.all p t.
Proof.
  induction s as [|c s IH]; [reflexivity|].
  rewrite app_cons. simpl. rewrite IH, andb_assoc. reflexivity.
Qed.

Lemma trim_head_not_space (c : ascii) (s : string) :
  Char.is_space c = false -> Str.trim (String c s) <> "".
Proof.
  intros H. unfold Str.trim. cbn [Str.trimStart]. rewrite H.
  cbn [Str.trimEnd]. destruct (Str.trimEnd s); rewrite ?H; discriminate.
Qed.

Lemma trimStart_cases (s : string) :
  Str.trimStart s = "" \/
  exists c r, Str.trimStart s = String c r /\ Char.is_space c = false.
Proof.
  induction s as [|c s IH]; [left; reflexivity|].
  simpl. destruct (Char.is_space c) eqn:E; [assumption|].
  right. exists c, s. auto.
Qed.

Lemma trim_blank_trimStart (s : string) :
  Str.trim s = "" -> Str.trimStart s = "".
Proof.
  intros H. destruct (trimStart_cases s) as [E|(c & r & E & Hc)]; [assumption|].
  exfalso. unfold Str.trim in H. rewrite E in H.
  apply (trim_head_not_space c r Hc). unfold Str.trim.
  cbn [Str.trimStart]. rewrite Hc. assumption.
Qed.

Lemma parseInt_blank (s : string) : Str.trim s = "" -> Num.parseInt s = None.
Proof.
  intros H. apply trim_blank_trimStart in H.
  unfold Num.parseInt. rewrite H. reflexivity.
Qed.

(** ** Regular expressions: [test] decides the language *)

Section RegexFacts.
Import Regex.

Lemma lang_empty_inv (s : string) : lang Empty s -> s = "".
Proof. inversion 1; reflexivity. Qed.

Lemma lang_class_inv (p : ascii -> bool) (s : string) :
  lang (Class p) s -> exists c, s = String c "" /\ p c = true.
Proof. inversion 1; subst; eauto. Qed.

Lemma lang_seq_inv (a b : regex) (s : string) :
  lang (Seq a b) s -> exists s1 s2, s = s1 +:+ s2 /\ lang a s1 /\ lang b s2.
Proof. inversion 1; subst; eauto. Qed.

Lemma lang_alt_inv (a b : regex) (s : string) :
  lang (Alt a b) s -> lang a s \/ lang b s.
Proof. inversion 1; subst; auto. Qed.

Lemma lang_star_cons_inv (a : regex) (c : ascii) (s : string) :
  lang (Star a) (String c s) ->
  exists s1 s2, s = s1 +:+ s2 /\ lang a (String c s1) /\ lang (Star a) s2.
Proof.
  intros H. remember (Star a) as r eqn:Er. remember (String c s) as w eqn:Ew.
  revert a c s Er Ew.
  induction H as [| | | | | |a' u t Hu _ Ht IHt]; intros a0 c0 s0 Er Ew;
    try discriminate.
  injection Er as ->.
  destruct u as [|c' u].
  - rewrite app_nil_l in Ew. eapply IHt; eauto.
  - rewrite app_cons in Ew. injection Ew as -> <-. eauto.
Qed.

Lemma nullable_lang (r : regex) : nullable r = true <-> lang r "".
Proof.
  split.
  - induction r as [| |p|a IHa b IHb|a IHa b IHb|a IHa]; simpl; intros H;
      try discriminate.
    + constructor.
    + apply andb_true_iff in H as [Ha Hb].
      change "" with ("" +:+ ""). constructor; auto.
    + apply orb_true_iff in H as [Ha|Hb]; [apply lang_alt_l|apply lang_alt_r]; auto.
    + constructor.
  - intros H. remember "" as w eqn:Ew.
    induction H as [|p c Hc|a b s t _ IHs _ IHt|a b s _ IH|a b s _ IH|a|a s t _ _ _ _];
      simpl; try reflexivity; try discriminate.
    + apply app_eq_nil in Ew as [-> ->].
      rewrite IHs, IHt; reflexivity.
    + rewrite IH; auto.
    + rewrite IH; auto. apply orb_true_r.
Qed.

Lemma deriv_lang (c : ascii) (r : regex) (s : string) :
  lang (deriv c r) s <-> lang r (String c s).
Proof.
  revert s.
  induction r as [| |p|a IHa b IHb|a IHa b IHb|a IHa]; intros s; simpl.
  - split; inversion 1.
  - split; inversion 1.
  - destruct (p c) eqn:Hp; split; intros H.
    + apply lang_empty_inv in H as ->. constructor; assumption.
    + apply lang_class_inv in H as (c' & [= <- ->] & _). constructor.
    + inversion H.
    + apply lang_class_inv in H as (c' & [= <- ->] & Hc). congruence.
  - split.
    + intros H.
      assert (Hseq : lang (Seq (deriv c a) b) s -> lang (Seq a b) (String c s)).
      { intros H'. apply lang_seq_inv in H' as (s1 & s2 & -> & H1 & H2).
        rewrite <- app_cons. constructor; [apply IHa|]; assumption. }
      destruct (nullable a) eqn:Hn; [|auto].
      apply lang_alt_inv in H as [H|H]; [auto|].
      rewrite <- (app_nil_l (String c s)).
      constructor; [apply nullable_lang|apply IHb]; assumption.
    + intros H. apply lang_seq_inv in H as (s1 & s2 & E & H1 & H2).
      destruct s1 as [|c' s1].
      * rewrite app_nil_l in E. subst s2.
        apply nullable_lang in H1. rewrite H1.
        apply lang_alt_r, IHb. assumption.
      * rewrite app_cons in E. injection E as <- ->.
        assert (lang (Seq (deriv c a) b) (s1 +:+ s2))
          by (constructor; [apply IHa|]; assumption).
        destruct (nullable a); [apply lang_alt_l|]; assumption.
  - split; intros H.
    + apply lang_alt_inv in H as [H|H];
        [apply lang_alt_l, IHa|apply lang_alt_r, IHb]; assumption.
    + apply lang_alt_inv in H as [H|H];
        [apply lang_alt_l, IHa|apply lang_alt_r, IHb]; assumption.
  - split; intros H.
    + apply lang_seq_inv in H as (s1 & s2 & -> & H1 & H2).
      rewrite <- app_cons. constructor; [apply IHa|]; assumption.
    + apply lang_star_cons_inv in H as (s1 & s2 & -> & H1 & H2).
      constructor; [apply IHa|]; assumption.
Qed.

Lemma test_lang (r : regex) (s : string) : test r s = true <-> lang r s.
Proof.
  revert r. induction s as [|c s IH]; intros r; simpl.
  - apply nullable_lang.
  - rewrite IH. apply deriv_lang.
Qed.

End RegexFacts.

(** ** Characters *)

Lemma digit_facts (c : ascii) :
  Char.is_digit c = true ->
  Char.is_space c = false /\
  Ascii.eqb c "." = false /\
  Ascii.eqb c "-" = false /\
  Ascii.eqb c "+" = false /\
  Ascii.eqb c "x" = false /\
  Ascii.eqb c "X" = false /\
  Char.digit_value 10 c = Some (Z.of_N (Char.code c) - 48).
Proof. each_char c; vm_compute; intuition discriminate. Qed.

Lemma digit_value_bounds (c : ascii) :
  Char.is_digit c = true -> 0 <= Z.of_N (Char.code c) - 48 <= 9.
Proof. each_char c; vm_compute; intuition discriminate. Qed.

(** ** Groups of digits: the pattern, [split] and [parseInt] *)

Section Groups.
Import Regex.

Lemma lang_chr (c : ascii) (s : string) : lang (Chr c) s <-> s = String c "".
Proof.
  unfold Chr. split.
  - intros H. apply lang_class_inv in H as (c' & -> & Hc).
    apply Ascii.eqb_eq in Hc. congruence.
  - intros ->. constructor. apply Ascii.eqb_refl.
Qed.

Lemma lang_star_class (p : ascii -> bool) (s : string) :
  lang (Star (Class p)) s <-> Str.all p s = true.
Proof.
  split.
  - intros H. remember (Star (Class p)) as r eqn:Er.
    induction H as [| | | | | |a u t Hu _ _ IHt]; try discriminate; [reflexivity|].
    injection Er as ->.
    apply lang_class_inv in Hu as (c & -> & Hc).
    rewrite app_cons, app_nil_l. simpl. rewrite Hc, IHt; reflexivity.
  - induction s as [|c s IH]; simpl; intros H; [constructor|].
    apply andb_true_iff in H as [Hc Hs].
    change (String c s) with (String c "" +:+ s).
    constructor; [constructor|]; auto.
Qed.

Lemma lang_plus_class (p : ascii -> bool) (s : string) :
  lang (Plus (Class p)) s <-> s <> "" /\ Str.all p s = true.
Proof.
  unfold Plus. split.
  - intros H. apply lang_seq_inv in H as (s1 & s2 & -> & H1 & H2).
    apply lang_class_inv in H1 as (c & -> & Hc).
    apply lang_star_class in H2.
    rewrite app_cons, app_nil_l. simpl. rewrite Hc, H2. split; [discriminate|reflexivity].
  - intros [Hne H]. destruct s as [|c s]; [congruence|].
    simpl in H. apply andb_true_iff in H as [Hc Hs].
    change (String c s) with (String c "" +:+ s).
    constructor; [constructor; assumption|apply lang_star_class; assumption].
Qed.

Lemma lang_upto_class (p : ascii -> bool) (n : nat) (s : string) :
  lang (UpTo n (Class p)) s <->
  Str.all p s = true /\ (String.length s <= n)%nat.
Proof.
  revert s. induction n as [|n IH]; intros s; simpl.
  - split.
    + intros H. apply lang_empty_inv in H as ->. split; [reflexivity|simpl; lia].
    + intros [_ Hl]. destruct s; [constructor|simpl in Hl; lia].
  - split.
    + intros H. apply lang_alt_inv in H as [H|H].
      * apply lang_empty_inv in H as ->. split; [reflexivity|simpl; lia].
      * apply lang_seq_inv in H as (s1 & s2 & -> & H1 & H2).
        apply lang_class_inv in H1 as (c & -> & Hc).
        apply IH in H2 as [Ha Hl].
        rewrite app_cons, app_nil_l. simpl. rewrite Hc, Ha. split; [reflexivity|lia].
    + intros [Ha Hl]. destruct s as [|c s]; [apply lang_alt_l; constructor|].
      simpl in Ha, Hl. apply andb_true_iff in Ha as [Hc Hs].
      apply lang_alt_r. change (String c s) with (String c "" +:+ s).
      constructor; [constructor; assumption|apply IH; split; [assumption|lia]].
Qed.

Lemma lang_group (s : string) :
  lang (Between 1 3 (Class Char.is_digit)) s <-> isGroup s = true.
Proof.
  unfold Between, isGroup. simpl Times. change (3 - 1)%nat with 2%nat.
  rewrite !andb_true_iff, !Nat.leb_le. split.
  - intros H. apply lang_seq_inv in H as (s1 & s2 & -> & H1 & H2).
    apply lang_seq_inv in H1 as (c1 & e & -> & Hc & He).
    apply lang_empty_inv in He as ->.
    apply lang_class_inv in Hc as (c & -> & Hc).
    apply lang_upto_class in H2 as [Ha Hl].
    rewrite app_nil_r, app_cons, app_nil_l. simpl. rewrite Hc, Ha.
    repeat split; [lia|lia].
  - intros [[Ha Hlo] Hhi]. destruct s as [|c s]; [simpl in Hlo; lia|].
    simpl in Ha, Hhi. apply andb_true_iff in Ha as [Hc Hs].
    change (String c s) with ((String c "" +:+ "") +:+ s).
    constructor.
    + constructor; constructor; assumption.
    + apply lang_upto_class. split; [assumption|lia].
Qed.

Lemma dottedQuad_dotted (s : string) :
  test dottedQuad s = true <->
  exists g1 g2 g3 g4,
    s = dotted g1 g2 g3 g4 /\
    isGroup g1 = true /\ isGroup g2 = true /\
    isGroup g3 = true /\ isGroup g4 = true.
Proof.
  rewrite test_lang. unfold dottedQuad, dotted. simpl Times. split.
  - intros H.
    apply lang_seq_inv in H as (q & g4 & -> & H & H4).
    apply lang_seq_inv in H as (p1 & q1 & -> & H1 & H).
    apply lang_seq_inv in H as (p2 & q2 & -> & H2 & H).
    apply lang_seq_inv in H as (p3 & e & -> & H3 & He).
    apply lang_empty_inv in He as ->.
    apply lang_seq_inv in H1 as (g1 & d1 & -> & H1 & D1).
    apply lang_seq_inv in H2 as (g2 & d2 & -> & H2 & D2).
    apply lang_seq_inv in H3 as (g3 & d3 & -> & H3 & D3).
    apply lang_chr in D1 as ->. apply lang_chr in D2 as ->.
    apply lang_chr in D3 as ->.
    apply lang_group in H1, H2, H3, H4.
    exists g1, g2, g3, g4. rewrite app_nil_r, !app_assoc. auto.
  - intros (g1 & g2 & g3 & g4 & -> & H1 & H2 & H3 & H4).
    apply lang_group in H1, H2, H3, H4.
    replace (g1 +:+ "." +:+ g2 +:+ "." +:+ g3 +:+ "." +:+ g4)
      with (((g1 +:+ ".") +:+ (g2 +:+ ".") +:+ (g3 +:+ ".") +:+ "") +:+ g4)
      by (rewrite app_nil_r, !app_assoc; reflexivity).
    repeat constructor; try assumption; apply Ascii.eqb_refl.
Qed.

End Groups.

Lemma isGroup_digits (g : string) :
  isGroup g = true -> Str.all Char.is_digit g = true /\ g <> "".
Proof.
  unfold isGroup. rewrite !andb_true_iff, !Nat.leb_le.
  intros [[H Hl] _]. split; [assumption|]. intros ->. simpl in Hl. lia.
Qed.

Lemma split_group (g rest : string) :
  Str.all Char.is_digit g = true ->
  Str.split "." (g +:+ String "." rest) = g :: Str.split "." rest.
Proof.
  induction g as [|c g IH]; intros H.
  - reflexivity.
  - simpl in H. apply andb_true_iff in H as [Hc Hg].
    rewrite app_cons. simpl.
    destruct (digit_facts c Hc) as (_ & -> & _).
    rewrite (IH Hg). reflexivity.
Qed.

Lemma split_last (g : string) :
  Str.all Char.is_digit g = true -> Str.split "." g = [g].
Proof.
  induction g as [|c g IH]; intros H; [reflexivity|].
  simpl in H. apply andb_true_iff in H as [Hc Hg].
  simpl. destruct (digit_facts c Hc) as (_ & -> & _).
  rewrite (IH Hg). reflexivity.
Qed.

Lemma split_dotted (g1 g2 g3 g4 : string) :
  isGroup g1 = true -> isGroup g2 = true ->
  isGroup g3 = true -> isGroup g4 = true ->
  Str.split "." (dotted g1 g2 g3 g4) = [g1; g2; g3; g4].
Proof.
  intros H1 H2 H3 H4.
  apply isGroup_digits in H1 as [H1 _], H2 as [H2 _], H3 as [H3 _], H4 as [H4 _].
  unfold dotted.
  rewrite !app_cons, !app_nil_l.
  rewrite !split_group, split_last by assumption. reflexivity.
Qed.

Lemma digits_decimal (acc : Z) (s : string) :
  Str.all Char.is_digit s = true ->
  Num.digits 10 (Some acc) s = Some (decimalFrom acc s).
Proof.
  revert acc. induction s as [|c s IH]; intros acc H; [reflexivity|].
  simpl in H. apply andb_true_iff in H as [Hc Hs].
  simpl. destruct (digit_facts c Hc) as (_ & _ & _ & _ & _ & _ & ->).
  apply IH. assumption.
Qed.

Lemma parseInt_digits (s : string) :
  Str.all Char.is_digit s = true -> s <> "" ->
  Num.parseInt s = Some (decimal s).
Proof.
  intros H Hne. destruct s as [|c s]; [congruence|].
  pose proof H as H'. simpl in H'. apply andb_true_iff in H' as [Hc Hs].
  destruct (digit_facts c Hc) as (Hsp & _ & Hm & Hp & Hx & HX & Hv).
  unfold Num.parseInt. simpl Str.trimStart. rewrite Hsp, Hm, Hp.
  assert (Hr : (match String c s with
                | String c0 (String c1 r) =>
                    if Ascii.eqb c0 "0" && (Ascii.eqb c1 "x" || Ascii.eqb c1 "X")
                    then (16, r) else (10, String c s)
                | _ => (10, String c s)
                end) = (10, String c s)).
  { destruct s as [|c1 s]; [reflexivity|].
    simpl in Hs. apply andb_true_iff in Hs as [Hc1 _].
    destruct (digit_facts c1 Hc1) as (_ & _ & _ & _ & -> & -> & _).
    rewrite andb_false_r. reflexivity. }
  rewrite Hr. simpl Num.digits. rewrite Hv.
  rewrite digits_decimal by assumption.
  unfold decimal. simpl decimalFrom. f_equal.
  destruct (decimalFrom _ s); reflexivity.
Qed.

(** ** Address fields on the two paths *)

Lemma details_address (field v : string) :
  In field addressFields ->
  Details.validateField field v =
    if negb (Regex.test dottedQuad v) then shapeError field
    else if existsb (fun part => Num.gt (Num.parseInt part) 255) (Str.split "." v)
         then octetError field else "".
Proof. intros [<-|[<-|[<-|[]]]]; reflexivity. Qed.

Lemma registration_address (field v : string) :
  In field addressFields ->
  Registration.validateField field v =
    if negb (Regex.test dottedQuad v) then shapeError field else "".
Proof. intros [<-|[<-|[<-|[]]]]; reflexivity. Qed.

Lemma gt_group (g : string) (bound : Z) :
  isGroup g = true ->
  Num.gt (Num.parseInt g) bound = (bound <? decimal g).
Proof.
  intros H. apply isGroup_digits in H as [Hd Hne].
  rewrite parseInt_digits by assumption. reflexivity.
Qed.

(** C1.  A dotted quad of the right shape (four groups of one to three
    digits) with a group whose value exceeds 255, in [client_ip], [subnet]
    or [dns]: the validator of the edit path returns the octet-range
    message of the field, which is an error and is not the message it
    returns on a string of the wrong shape; the validator of the
    registration path returns the empty string, that is, accepts (and the
    string is not blank, so the blank check of the submit handler lets it
    through to the validator). *)
Theorem octet_above_255_edit_rejects_registration_accepts
    (field g1 g2 g3 g4 : string) :
  In field addressFields ->
  isGroup g1 = true -> isGroup g2 = true ->
  isGroup g3 = true -> isGroup g4 = true ->
  255 < decimal g1 \/ 255 < decimal g2 \/ 255 < decimal g3 \/ 255 < decimal g4 ->
  Details.validateField field (dotted g1 g2 g3 g4) = octetError field /\
  octetError field <> "" /\
  octetError field <> shapeError field /\
  (forall w, Regex.test dottedQuad w = false ->
             Details.validateField field w = shapeError field) /\
  Registration.validateField field (dotted g1 g2 g3 g4) = "" /\
  Str.trim (dotted g1 g2 g3 g4) <> "".
Proof.
  intros Hf H1 H2 H3 H4 Hbig.
  assert (Hshape : Regex.test dottedQuad (dotted g1 g2 g3 g4) = true).
  { apply dottedQuad_dotted. exists g1, g2, g3, g4. auto. }
  assert (Hsome : existsb (fun part => Num.gt (Num.parseInt part) 255)
                    (Str.split "." (dotted g1 g2 g3 g4)) = true).
  { rewrite split_dotted by assumption. simpl.
    rewrite !gt_group by assumption. rewrite orb_false_r, !orb_true_iff, !Z.ltb_lt.
    tauto. }
  repeat split.
  - rewrite details_address, Hshape, Hsome by assumption. reflexivity.
  - destruct Hf as [<-|[<-|[<-|[]]]]; discriminate.
  - destruct Hf as [<-|[<-|[<-|[]]]]; discriminate.
  - intros w Hw. rewrite details_address, Hw by assumption. reflexivity.
  - rewrite registration_address, Hshape by assumption. reflexivity.
  - apply isGroup_digits in H1 as [Hd Hne].
    destruct g1 as [|c g1]; [congruence|].
    simpl in Hd. apply andb_true_iff in Hd as [Hc _].
    unfold dotted. rewrite app_cons. apply trim_head_not_space.
    apply (digit_facts c Hc).
Qed.

Lemma octet_above_255_witness :
  Details.validateField "client_ip" (dotted "999" "1" "1" "1")
    = octetError "client_ip" /\
  octetError "client_ip" <> "" /\
  octetError "client_ip" <> shapeError "client_ip" /\
  (forall w, Regex.test dottedQuad w = false ->
             Details.validateField "client_ip" w = shapeError "client_ip") /\
  Registration.validateField "client_ip" (dotted "999" "1" "1" "1") = "" /\
  Str.trim (dotted "999" "1" "1" "1") <> "".
Proof.
  apply (octet_above_255_edit_rejects_registration_accepts
           "client_ip" "999" "1" "1" "1").
  - left; reflexivity.
  - reflexivity.
  - reflexivity.
  - reflexivity.
  - reflexivity.
  - left. vm_compute. reflexivity.
Defined.

(** ** VLAN *)

Lemma vlan_same_on_both_paths (v : string) :
  Details.validateField "vlan" v = Registration.validateField "vlan" v.
Proof. reflexivity. Qed.

Lemma vlan_by_parseInt (v : string) :
  Registration.validateField "vlan" v = "" <->
  exists n, Num.parseInt v = Some n /\ 1 <= n <= 4094.
Proof.
  change (Registration.validateField "vlan" v)
    with (if Num.nan_or_outside 1 4094 (Num.parseInt v)
          then "VLAN must be between 1-4094" else "").
  destruct (Num.parseInt v) as [n|]; simpl.
  - destruct (n <? 1) eqn:Hlo; simpl.
    + apply Z.ltb_lt in Hlo. split; [discriminate|].
      intros (m & [= <-] & Hm). lia.
    + apply Z.ltb_ge in Hlo. destruct (4094 <? n) eqn:Hhi.
      * apply Z.ltb_lt in Hhi. split; [discriminate|].
        intros (m & [= <-] & Hm). lia.
      * apply Z.ltb_ge in Hhi. split; [|reflexivity].
        intros _. exists n. split; [reflexivity|lia].
  - split; [discriminate|]. intros (m & [=] & _).
Qed.





(** ** Bandwidth *)

Lemma fold_unit_letters (c : ascii) :
  (Char.canonicalize c =? Char.canonicalize "M")%N = Ascii.eqb (Char.toLowerCase c) "m" /\
  (Char.canonicalize c =? Char.canonicalize "G")%N = Ascii.eqb (Char.toLowerCase c) "g" /\
  (Char.canonicalize c =? Char.canonicalize "K")%N = Ascii.eqb (Char.toLowerCase c) "k" /\
  (Char.canonicalize c =? Char.canonicalize "b")%N = Ascii.eqb (Char.toLowerCase c) "b" /\
  (Char.canonicalize c =? Char.canonicalize "p")%N = Ascii.eqb (Char.toLowerCase c) "p" /\
  (Char.canonicalize c =? Char.canonicalize "s")%N = Ascii.eqb (Char.toLowerCase c) "s".
Proof. each_char c; vm_compute; repeat split. Qed.

Lemma fold_M (c : ascii) :
  (Char.canonicalize c =? Char.canonicalize "M")%N = Ascii.eqb (Char.toLowerCase c) "m".
Proof. apply fold_unit_letters. Qed.

Lemma fold_G (c : ascii) :
  (Char.canonicalize c =? Char.canonicalize "G")%N = Ascii.eqb (Char.toLowerCase c) "g".
Proof. apply fold_unit_letters. Qed.

Lemma fold_K (c : ascii) :
  (Char.canonicalize c =? Char.canonicalize "K")%N = Ascii.eqb (Char.toLowerCase c) "k".
Proof. apply fold_unit_letters. Qed.

Lemma fold_b (c : ascii) :
  (Char.canonicalize c =? Char.canonicalize "b")%N = Ascii.eqb (Char.toLowerCase c) "b".
Proof. apply fold_unit_letters. Qed.

Lemma fold_p (c : ascii) :
  (Char.canonicalize c =? Char.canonicalize "p")%N = Ascii.eqb (Char.toLowerCase c) "p".
Proof. apply fold_unit_letters. Qed.

Lemma fold_s (c : ascii) :
  (Char.canonicalize c =? Char.canonicalize "s")%N = Ascii.eqb (Char.toLowerCase c) "s".
Proof. apply fold_unit_letters. Qed.

Lemma lang_wordI (w u : string) :
  Regex.lang (Regex.WordI w) u <-> sameFold w u = true.
Proof.
  revert u. induction w as [|a w IH]; intros u; simpl.
  - split.
    + intros H. apply lang_empty_inv in H as ->. reflexivity.
    + destruct u; [constructor|discriminate].
  - split.
    + intros H. apply lang_seq_inv in H as (s1 & s2 & -> & H1 & H2).
      apply lang_class_inv in H1 as (b & -> & Hb).
      rewrite app_cons, app_nil_l. rewrite Hb. apply IH. assumption.
    + destruct u as [|b u]; [discriminate|]. intros H.
      apply andb_true_iff in H as [Hb Hu].
      change (String b u) with (String b "" +:+ u).
      constructor; [constructor; assumption|apply IH; assumption].
Qed.

Lemma sameFold_unit (u : string) :
  sameFold "Mbps" u = String.eqb (Str.toLowerCase u) "mbps" /\
  sameFold "Gbps" u = String.eqb (Str.toLowerCase u) "gbps" /\
  sameFold "Kbps" u = String.eqb (Str.toLowerCase u) "kbps".
Proof.
  destruct u as [|c1 [|c2 [|c3 [|c4 [|c5 u]]]]];
    cbn [sameFold Str.toLowerCase Str.map String.eqb];
    rewrite ?fold_M, ?fold_G, ?fold_K, ?fold_b, ?fold_p, ?fold_s;
    repeat match goal with
    | |- context [Ascii.eqb (Char.toLowerCase ?c) ?l] =>
        destruct (Ascii.eqb (Char.toLowerCase c) l)
    end;
    repeat split.
Qed.

Lemma bandwidth_unit (u : string) :
  Regex.lang (Regex.Alt (Regex.Alt (Regex.WordI "Mbps") (Regex.WordI "Gbps"))
                (Regex.WordI "Kbps")) u <->
  isUnit u = true.
Proof.
  unfold isUnit. destruct (sameFold_unit u) as (Hm & Hg & Hk).
  rewrite !orb_true_iff, <- Hm, <- Hg, <- Hk, <- !lang_wordI. split.
  - intros H. apply lang_alt_inv in H as [H|H]; [|tauto].
    apply lang_alt_inv in H as [H|H]; tauto.
  - intros [[H|H]|H].
    + apply Regex.lang_alt_r; assumption.
    + apply Regex.lang_alt_l, Regex.lang_alt_l; assumption.
    + apply Regex.lang_alt_l, Regex.lang_alt_r; assumption.
Qed.

Lemma bandwidthRegex_shape (v : string) :
  Regex.test bandwidthRegex v = true <-> bandwidthShape v.
Proof.
  rewrite test_lang. unfold bandwidthRegex, bandwidthShape. split.
  - intros H. apply lang_seq_inv in H as (ds & r & -> & Hd & H).
    apply lang_seq_inv in H as (ws & u & -> & Hw & Hu).
    apply lang_plus_class in Hd as [Hne Hd].
    apply lang_star_class in Hw. apply bandwidth_unit in Hu.
    exists ds, ws, u. auto.
  - intros (ds & ws & u & -> & Hne & Hd & Hw & Hu).
    constructor; [apply lang_plus_class; auto|].
    constructor; [apply lang_star_class; assumption|].
    apply bandwidth_unit; assumption.
Qed.

Lemma bandwidth_same_on_both_paths (v : string) :
  Details.validateField "bandwidth" v = Registration.validateField "bandwidth" v.
Proof. reflexivity. Qed.

Lemma bandwidth_by_shape (v : string) :
  Registration.validateField "bandwidth" v = "" <-> bandwidthShape v.
Proof.
  rewrite <- bandwidthRegex_shape.
  change (Registration.validateField "bandwidth" v)
    with (if negb (Regex.test bandwidthRegex v)
          then "Bandwidth must include unit (e.g., 100 Mbps, 1 Gbps)" else "").
  destruct (Regex.test bandwidthRegex v); simpl; split; congruence.
Qed.

(** C4.  On both paths the bandwidth validator accepts a string exactly
    when it is one or more digits, then white space or none, then one of
    the units Kbps, Mbps, Gbps in any case (such a string is never blank,
    so the blank check of the submit handler lets it through).
    ["100 Mbps"], ["1Gbps"] and
    ["50 kbps"] are accepted; ["100"] and ["100 Mbs"] are rejected. *)
Theorem bandwidth_accepts_digits_space_unit :
  (forall v, Registration.validateField "bandwidth" v = "" <-> bandwidthShape v) /\
  (forall v, Details.validateField "bandwidth" v = "" <-> bandwidthShape v) /\
  (forall v, bandwidthShape v -> Str.trim v <> "") /\
  Forall (fun v => Registration.validateField "bandwidth" v = "" /\
                   Details.validateField "bandwidth" v = "")
         ["100 Mbps"; "1Gbps"; "50 kbps"] /\
  Forall (fun v => Registration.validateField "bandwidth" v <> "" /\
                   Details.validateField "bandwidth" v <> "")
         ["100"; "100 Mbs"].
Proof.
  split; [exact bandwidth_by_shape|].
  split; [intros v; rewrite bandwidth_same_on_both_paths; apply bandwidth_by_shape|].
  split.
  { intros v (ds & ws & u & -> & Hne & Hd & _).
    destruct ds as [|c ds]; [congruence|].
    simpl in Hd. apply andb_true_iff in Hd as [Hc _].
    rewrite app_cons. apply trim_head_not_space. apply (digit_facts c Hc). }
  split; repeat constructor; discriminate.
Qed.

(** ** Lookup *)

Lemma trim_nonempty_truthy (q : string) :
  Str.trim q <> "" -> Str.truthy (Str.trim q) = true.
Proof. destruct (Str.trim q); [congruence|reflexivity]. Qed.

Lemma lookup_nonblank (q : string) :
  Str.trim q <> "" ->
  Search.lookup q =
    match find (Search.sameId q) Search.mockCircuits with
    | Some c => Search.Selected c
    | None => Search.NotFound (Search.notFoundMessage q)
    end.
Proof.
  intros H. unfold Search.lookup, Search.handleSearch, Search.fire.
  cbn [Search.circuitId]. rewrite (trim_nonempty_truthy q H). cbn [negb].
  destruct (find (Search.sameId q) Search.mockCircuits); reflexivity.
Qed.

Lemma sameId_true (q : string) (c : Circuit) :
  Search.sameId q c = true <->
  Str.toLowerCase (circuit_id c) = Str.toLowerCase q.
Proof. unfold Search.sameId. apply String.eqb_eq. Qed.

Lemma notFoundMessage_names_query (q : string) :
  exists pre post, Search.notFoundMessage q = pre +:+ q +:+ post.
Proof.
  exists ("Circuit ID " +:+ Search.quote),
         (Search.quote +:+ " not found in the system").
  unfold Search.notFoundMessage. rewrite !app_assoc. reflexivity.
Qed.

(** C5.  For a query that is not blank, the lookup goes through the demo
    list comparing the lower case of each [circuit_id] with the lower case
    of the query: a record that matches is the one handed to
    [onCircuitSelect]; when no record matches, the outcome is the not-found
    message, which contains the query. *)
Theorem lookup_matches_identifier_without_case (q : string) :
  Str.trim q <> "" ->
  (forall c, In c Search.mockCircuits ->
             Str.toLowerCase (circuit_id c) = Str.toLowerCase q ->
             Search.lookup q = Search.Selected c) /\
  ((forall c, In c Search.mockCircuits ->
              Str.toLowerCase (circuit_id c) <> Str.toLowerCase q) ->
   Search.lookup q = Search.NotFound (Search.notFoundMessage q) /\
   exists pre post, Search.notFoundMessage q = pre +:+ q +:+ post).
Proof.
  intros Hq. rewrite (lookup_nonblank q Hq). split.
  - intros c Hc E. unfold Search.mockCircuits in *. simpl in Hc.
    unfold find, Search.sameId. rewrite <- E.
    destruct Hc as [<-|[<-|[<-|[]]]]; reflexivity.
  - intros Hnone. split; [|apply notFoundMessage_names_query].
    assert (Hf : forall c, In c Search.mockCircuits -> Search.sameId q c = false).
    { intros c Hc. apply not_true_is_false. rewrite sameId_true. auto. }
    unfold Search.mockCircuits in *. simpl find.
    rewrite !Hf by (simpl; auto). reflexivity.
Qed.

Lemma lookup_witness :
  Search.lookup "ckt-002-lax" = Search.Selected
    {| circuit_id := "CKT-002-LAX";
       client_name := "Global Enterprises Inc";
       client_ip := "10.0.0.50";
       subnet := "255.255.0.0";
       dns := "1.1.1.1";
       vlan := "200";
       bandwidth := "500 Mbps";
       location := "Los Angeles Data Center";
       mux_id := "MUX-LAX-03";
       port_id := "Port-12";
       last_updated := "2024-06-13 15:45:00" |}.
Proof.
  apply (lookup_matches_identifier_without_case "ckt-002-lax").
  - discriminate.
  - right; left; reflexivity.
  - reflexivity.
Defined.

Lemma lower_keeps_space (c : ascii) :
  Char.is_space (Char.toLowerCase c) = Char.is_space c.
Proof. each_char c; reflexivity. Qed.

(** A string whose lower case is that of an eleven-character word with no
    white space at either end is its own trim. *)
Lemma trim_of_lower_eleven (q : string) (a b c d e f g h i j k : ascii) :
  Str.toLowerCase q =
    String a (String b (String c (String d (String e (String f (String g
      (String h (String i (String j (String k "")))))))))) ->
  Char.is_space a = false -> Char.is_space k = false ->
  Str.trim q = q.
Proof.
  intros H Ha Hk.
  do 11 (destruct q as [|? q]; [discriminate|];
         cbn [Str.toLowerCase Str.map] in H; injection H as ? H).
  destruct q; [|discriminate]. subst.
  rewrite lower_keeps_space in Ha, Hk.
  unfold Str.trim. cbn [Str.trimStart]. rewrite Ha.
  cbn [Str.trimEnd]. rewrite Hk. reflexivity.
Qed.

Lemma padded_query_matches_nothing (q : string) (c : Circuit) :
  Str.trim q <> q -> In c Search.mockCircuits -> Search.sameId q c = false.
Proof.
  intros Hpad Hc. apply not_true_is_false. rewrite sameId_true. intros E.
  apply Hpad. symmetry in E.
  destruct Hc as [<-|[<-|[<-|[]]]];
    eapply trim_of_lower_eleven; try exact E; reflexivity.
Qed.

(** C10.  The lookup compares the query as typed.  A query that is not
    blank but has white space at its start or end (its trim differs from
    it) matches no record of the demo list and yields the not-found
    message; so does [" CKT-001-NYC "], although its trim is the identifier
    of a record, which the lookup of the trimmed query selects. *)
Theorem lookup_does_not_trim_query (q : string) :
  Str.trim q <> "" -> Str.trim q <> q ->
  Search.lookup q = Search.NotFound (Search.notFoundMessage q) /\
  Search.lookup " CKT-001-NYC " =
    Search.NotFound (Search.notFoundMessage " CKT-001-NYC ") /\
  Str.trim " CKT-001-NYC " = "CKT-001-NYC" /\
  exists c, In c Search.mockCircuits /\ circuit_id c = "CKT-001-NYC" /\
            Search.lookup "CKT-001-NYC" = Search.Selected c.
Proof.
  intros Hq Hpad. split; [|split; [reflexivity|split; [reflexivity|]]].
  - rewrite (lookup_nonblank q Hq).
    unfold Search.mockCircuits. simpl find.
    rewrite !(padded_query_matches_nothing q) by (simpl; auto). reflexivity.
  - eexists. split; [left; reflexivity|]. split; reflexivity.
Qed.

Lemma lookup_untrimmed_witness :
  Search.lookup "CKT-003-CHI " = Search.NotFound (Search.notFoundMessage "CKT-003-CHI ").
Proof.
  apply (lookup_does_not_trim_query "CKT-003-CHI "); discriminate.
Defined.

(** ** The error map of a validation pass *)

Section ErrorMap.

Context {A : Type} (key : A -> string) (err : A -> option string).
Context (f : gmap string string -> A -> gmap string string).
Hypothesis f_spec : forall m a,
  f m a = match err a with Some e => <[key a := e]> m | None => m end.

Lemma foldl_errors_lookup (l : list A) (m0 : gmap string string)
    (k msg : string) :
  List.NoDup (List.map key l) ->
  foldl f m0 l !! k = Some msg <->
  (exists a, In a l /\ key a = k /\ err a = Some msg) \/
  ((forall a, In a l -> key a = k -> err a = None) /\ m0 !! k = Some msg).
Proof.
  revert m0. induction l as [|a l IH]; intros m0 Hnd.
  - simpl. split; [intros H; right; split; [intros ? []|assumption]|].
    intros [(a & [] & _)|[_ H]]; assumption.
  - simpl in Hnd. apply NoDup_cons_iff in Hnd as [Hnotin Hnd].
    assert (Hfresh : forall b, In b l -> key b <> key a).
    { intros b Hb E. apply Hnotin. rewrite <- E. apply in_map. assumption. }
    cbn [foldl]. rewrite (IH (f m0 a) Hnd), f_spec. split.
    + intros [(b & Hb & Hk & He)|[Hnone Hm]].
      * left. exists b. simpl. auto.
      * destruct (err a) as [e|] eqn:Ea.
        -- destruct (decide (key a = k)) as [Ek|Ek].
           ++ rewrite <- Ek, lookup_insert_eq in Hm. injection Hm as ->.
              left. exists a. simpl. auto.
           ++ rewrite lookup_insert_ne in Hm by assumption.
              right. split; [|assumption].
              intros b [<-|Hb] Hk; [contradiction|auto].
        -- right. split; [|assumption].
           intros b [<-|Hb] Hk; [assumption|auto].
    + intros [(b & [<-|Hb] & Hk & He)|[Hnone Hm]].
      * right. rewrite He, <- Hk, lookup_insert_eq. split; [|reflexivity].
        intros b Hb E. exfalso. apply (Hfresh b Hb). congruence.
      * left. exists b. auto.
      * right. split; [intros b Hb; apply Hnone; simpl; auto|].
        destruct (err a) as [e|] eqn:Ea; [|assumption].
        rewrite lookup_insert_ne; [assumption|].
        intros E. specialize (Hnone a (or_introl eq_refl) E). congruence.
Qed.

End ErrorMap.

Lemma truthy_iff (s : string) : Str.truthy s = true <-> s <> "".
Proof. destruct s; simpl; split; congruence. Qed.

Lemma requiredMessage_nonempty (field : string) :
  Registration.requiredMessage field <> "".
Proof.
  unfold Registration.requiredMessage. intros E.
  apply app_eq_nil in E as [_ E]. discriminate.
Qed.

Lemma entries_keys_NoDup (fd : Registration.FormData) :
  List.NoDup (List.map fst (Registration.entries fd)).
Proof.
  simpl. repeat (constructor; [simpl; intuition discriminate|]). constructor.
Qed.

(** What one entry contributes to the map of [handleSubmit]. *)
Lemma registration_errors_lookup (validate : string -> string -> string)
    (fd : Registration.FormData) (k msg : string) :
  Registration.collectErrorsWith validate fd !! k = Some msg <->
  exists v, In (k, v) (Registration.entries fd) /\ msg <> "" /\
            msg = if negb (Str.truthy (Str.trim v))
                  then Registration.requiredMessage k else validate k v.
Proof.
  unfold Registration.collectErrorsWith.
  rewrite (foldl_errors_lookup fst
             (fun e => if negb (Str.truthy (Str.trim e.2))
                       then Some (Registration.requiredMessage e.1)
                       else if Str.truthy (validate e.1 e.2)
                            then Some (validate e.1 e.2) else None)).
  - rewrite lookup_empty. split.
    + intros [([k' v] & Hin & Hk & He)|[_ [=]]]. simpl in Hk, He. subst k'.
      exists v. split; [assumption|].
      destruct (negb (Str.truthy (Str.trim v))).
      * injection He as <-. split; [apply requiredMessage_nonempty|reflexivity].
      * destruct (Str.truthy (validate k v)) eqn:Ht; [|discriminate].
        injection He as <-. split; [apply truthy_iff; assumption|reflexivity].
    + intros (v & Hin & Hne & ->). left. exists (k, v). simpl.
      split; [assumption|]. split; [reflexivity|].
      destruct (negb (Str.truthy (Str.trim v))); [reflexivity|].
      apply truthy_iff in Hne. rewrite Hne. reflexivity.
  - intros m [k' v]. simpl.
    destruct (negb (Str.truthy (Str.trim v))); [reflexivity|].
    destruct (Str.truthy (validate k' v)); reflexivity.
  - apply entries_keys_NoDup.
Qed.

Lemma editableFields_keys_NoDup : List.NoDup (List.map key_name Details.editableFields).
Proof.
  simpl. repeat (constructor; [simpl; intuition discriminate|]). constructor.
Qed.

(** What one field contributes to the map of [handleSave]. *)
Lemma details_errors_lookup (edited : Circuit) (k msg : string) :
  Details.collectErrors edited !! k = Some msg <->
  exists field, In field Details.editableFields /\ k = key_name field /\
                msg <> "" /\
                msg = Details.validateField k (get field edited).
Proof.
  unfold Details.collectErrors.
  rewrite (foldl_errors_lookup key_name
             (fun field =>
                if Str.truthy (Details.validateField (key_name field) (get field edited))
                then Some (Details.validateField (key_name field) (get field edited))
                else None)).
  - rewrite lookup_empty. split.
    + intros [(field & Hin & <- & He)|[_ [=]]].
      exists field. split; [assumption|]. split; [reflexivity|].
      destruct (Str.truthy _) eqn:Ht; [|discriminate].
      injection He as <-. split; [apply truthy_iff; assumption|reflexivity].
    + intros (field & Hin & -> & Hne & ->). left. exists field.
      split; [assumption|]. split; [reflexivity|].
      apply truthy_iff in Hne. rewrite Hne. reflexivity.
  - intros m field. unfold Details.checkField.
    destruct (Str.truthy _); reflexivity.
  - apply editableFields_keys_NoDup.
Qed.

Lemma size_positive (m : gmap string string) :
  Nat.ltb 0 (size m) = true <-> m <> ∅.
Proof.
  rewrite Nat.ltb_lt, <- map_size_non_empty_iff. lia.
Qed.

Lemma registration_blocked (st : Registration.State) :
  Registration.collectErrors (Registration.formData st) <> ∅ ->
  Registration.handleSubmit st =
    ({| Registration.formData := Registration.formData st;
        Registration.loading := Registration.loading st;
        Registration.success := Registration.success st;
        Registration.errors :=
          Registration.collectErrors (Registration.formData st) |}, []).
Proof.
  intros H. unfold Registration.handleSubmit.
  apply size_positive in H. rewrite H. reflexivity.
Qed.

Lemma details_blocked (st : Details.State) (edited : Circuit) :
  Details.editedCircuit st = Some edited ->
  Details.collectErrors edited <> ∅ ->
  Details.handleSave st =
    ({| Details.isEditing := Details.isEditing st;
        Details.editedCircuit := Some edited;
        Details.loading := Details.loading st;
        Details.success := Details.success st;
        Details.errors := Details.collectErrors edited |}, []).
Proof.
  intros He H. unfold Details.handleSave. rewrite He.
  apply size_positive in H. rewrite H. reflexivity.
Qed.

(** C8.  On registration submit and on edit save, the validation pass
    builds a map from field name to message that has an entry for a field
    exactly when the field is invalid, the entry being the one message of
    that field.  When the map is not empty the handler only stores it as
    the errors to display: it schedules nothing and calls nothing (no
    record is built or handed to [onRegister] or [onUpdate]), and leaves
    the loading and success flags as they were. *)
Theorem invalid_form_blocks_submission :
  (forall fd k msg,
     Registration.collectErrors fd !! k = Some msg <->
     exists v, In (k, v) (Registration.entries fd) /\ msg <> "" /\
               msg = if negb (Str.truthy (Str.trim v))
                     then Registration.requiredMessage k
                     else Registration.validateField k v) /\
  (forall st,
     Registration.collectErrors (Registration.formData st) <> ∅ ->
     Registration.handleSubmit st =
       ({| Registration.formData := Registration.formData st;
           Registration.loading := Registration.loading st;
           Registration.success := Registration.success st;
           Registration.errors :=
             Registration.collectErrors (Registration.formData st) |}, [])) /\
  (forall edited k msg,
     Details.collectErrors edited !! k = Some msg <->
     exists field, In field Details.editableFields /\ k = key_name field /\
                   msg <> "" /\
                   msg = Details.validateField k (get field edited)) /\
  (forall st edited,
     Details.editedCircuit st = Some edited ->
     Details.collectErrors edited <> ∅ ->
     Details.handleSave st =
       ({| Details.isEditing := Details.isEditing st;
           Details.editedCircuit := Some edited;
           Details.loading := Details.loading st;
           Details.success := Details.success st;
           Details.errors := Details.collectErrors edited |}, [])) /\
  (forall w,
     (exists edited, Details.editedCircuit (Details.state w) = Some edited /\
                     Details.collectErrors edited <> ∅) ->
     Details.updates (Details.step w Details.ClickSave) = Details.updates w /\
     Details.timers (Details.step w Details.ClickSave) = Details.timers w /\
     Details.circuit (Details.step w Details.ClickSave) = Details.circuit w).
Proof.
  split; [intros fd k msg; apply registration_errors_lookup|].
  split; [exact registration_blocked|].
  split; [exact details_errors_lookup|].
  split; [exact details_blocked|].
  intros w (edited & He & Herr). unfold Details.step.
  destruct (Details.isEditing (Details.state w) && negb (Details.loading (Details.state w)));
    [|auto].
  rewrite (details_blocked _ edited He Herr). simpl. auto.
Qed.

(** ** The blank check of registration *)

Lemma fieldLabel_of_form_key (fd : Registration.FormData) (field value : string) :
  In (field, value) (Registration.entries fd) ->
  Registration.fieldLabel field = specFieldName field.
Proof.
  simpl. intros H.
  repeat (destruct H as [[= <- _]|H]; [reflexivity|]). destruct H.
Qed.

(** C9.  On registration submit, a field of the form whose value is empty
    or white space only gets the entry ["<Field Name> is required"] in the
    error map that the handler stores, where the field name is the key with
    underscores turned into spaces and the first letter of each word in
    upper case ([circuit_id] gives ["Circuit Id is required"]).  The entry
    is the same whatever the validator is: the validator is not consulted
    for such a field. *)
Theorem blank_field_is_required
    (validate : string -> string -> string)
    (st : Registration.State) (field value : string) :
  In (field, value) (Registration.entries (Registration.formData st)) ->
  Str.trim value = "" ->
  Registration.collectErrorsWith validate (Registration.formData st) !! field
    = Some (specFieldName field +:+ " is required") /\
  Registration.errors (Registration.handleSubmit st).1 !! field
    = Some (specFieldName field +:+ " is required") /\
  (Registration.handleSubmit st).2 = [] /\
  specFieldName "circuit_id" +:+ " is required" = "Circuit Id is required".
Proof.
  intros Hin Hblank.
  assert (Hreq : forall vf,
            Registration.collectErrorsWith vf (Registration.formData st) !! field
            = Some (specFieldName field +:+ " is required")).
  { intros vf. apply registration_errors_lookup. exists value.
    split; [assumption|]. rewrite Hblank. simpl.
    rewrite <- (fieldLabel_of_form_key _ _ _ Hin).
    split; [apply requiredMessage_nonempty|reflexivity]. }
  split; [apply Hreq|].
  assert (Hne : Registration.collectErrors (Registration.formData st) <> ∅).
  { intros E. specialize (Hreq Registration.validateField).
    unfold Registration.collectErrors in E. rewrite E, lookup_empty in Hreq.
    discriminate. }
  rewrite (registration_blocked st Hne). simpl.
  split; [apply Hreq|]. split; reflexivity.
Qed.

Lemma blank_field_witness :
  Registration.errors (Registration.handleSubmit Registration.initial).1 !! "mux_id"
    = Some (specFieldName "mux_id" +:+ " is required").
Proof.
  apply (blank_field_is_required Registration.validateField
           Registration.initial "mux_id" "").
  - simpl. do 8 right. left. reflexivity.
  - reflexivity.
Defined.

(** ** The edit flow *)

Lemma run_app (w : Details.World) (es es' : list Details.Event) :
  Details.run w (es ++ es') = Details.run (Details.run w es) es'.
Proof. apply foldl_app. Qed.

Lemma handleSave_keeps_mode (st : Details.State) :
  Details.isEditing (Details.handleSave st).1 = Details.isEditing st /\
  Details.editedCircuit (Details.handleSave st).1 = Details.editedCircuit st /\
  ((Details.handleSave st).2 = [] \/
   exists edited, Details.editedCircuit st = Some edited /\
                  Details.collectErrors edited = ∅ /\
                  (Details.handleSave st).2
                    = [Details.SetTimeout 1000 (Details.SaveTimer edited)]).
Proof.
  unfold Details.handleSave.
  destruct (Details.editedCircuit st) as [edited|] eqn:E; [|simpl; auto].
  destruct (Nat.ltb 0 (size (Details.collectErrors edited))) eqn:Hs; simpl; auto.
  split; [reflexivity|]. split; [reflexivity|]. right. exists edited.
  split; [reflexivity|]. split; [|reflexivity].
  destruct (decide (Details.collectErrors edited = ∅)) as [|Hne]; [assumption|].
  apply size_positive in Hne. congruence.
Qed.

Lemma step_save (w : Details.World) :
  let w' := Details.step w Details.ClickSave in
  Details.circuit w' = Details.circuit w /\
  Details.updates w' = Details.updates w /\
  Details.isEditing (Details.state w') = Details.isEditing (Details.state w) /\
  Details.editedCircuit (Details.state w') = Details.editedCircuit (Details.state w) /\
  (Details.timers w' = Details.timers w \/
   exists edited,
     Details.editedCircuit (Details.state w) = Some edited /\
     Details.collectErrors edited = ∅ /\
     Details.timers w' = Details.timers w ++ [Details.SaveTimer edited]).
Proof.
  unfold Details.step.
  destruct (Details.isEditing (Details.state w) && _); [|simpl; auto 10].
  destruct (handleSave_keeps_mode (Details.state w)) as (Hm & He & Heff).
  destruct (Details.handleSave (Details.state w)) as [st' effs].
  simpl in Hm, He, Heff.
  destruct Heff as [->|(edited & Hed & Hok & ->)]; simpl; auto 10.
  repeat split; try assumption. right. exists edited. auto.
Qed.

Lemma step_user_atRest (c : Circuit) (ups : list Circuit)
    (w : Details.World) (e : Details.Event) :
  userEvent e -> atRest c ups w -> atRest c ups (Details.step w e).
Proof.
  intros Hu (Hc & Hups & Hrest). destruct e as [| | |field value|n now].
  - unfold Details.step.
    destruct (Details.isEditing (Details.state w)) eqn:E.
    + split; [assumption|]. split; [assumption|]. congruence.
    + split; [assumption|]. split; [assumption|]. simpl. discriminate.
  - unfold Details.step.
    destruct (Details.isEditing (Details.state w)) eqn:E.
    + split; [assumption|]. split; [assumption|]. simpl. rewrite Hc. auto.
    + split; [assumption|]. split; [assumption|]. intros _. auto.
  - destruct (step_save w) as (H1 & H2 & H3 & H4 & _).
    split; [congruence|]. split; [congruence|]. rewrite H3, H4. intros Hf.
    destruct (Hrest Hf) as [He Herr]. split; [assumption|].
    unfold Details.step. rewrite Hf. assumption.
  - unfold Details.step.
    destruct (Details.isEditing (Details.state w)
              && existsb (Details.key_eqb field) Details.renderedFields) eqn:E.
    + apply andb_true_iff in E as [E _].
      split; [assumption|]. split; [assumption|].
      unfold Details.handleFieldChange.
      destruct (Details.editedCircuit (Details.state w)); simpl; congruence.
    + split; [assumption|]. split; assumption.
  - destruct Hu.
Qed.

Lemma run_user_atRest (c : Circuit) (ups : list Circuit)
    (es : list Details.Event) (w : Details.World) :
  Forall userEvent es -> atRest c ups w -> atRest c ups (Details.run w es).
Proof.
  intros Hes. revert w. induction Hes as [|e es He _ IH]; intros w Hw.
  - assumption.
  - apply (IH (Details.step w e)). apply step_user_atRest; assumption.
Qed.

(** C6.  From a record being shown, entering edit mode, changing fields
    (and clicking whatever else the page offers, as long as no timer fires
    in between) and then canceling leaves the record held by the page as
    it was, field for field; the editable copy is that record again, the
    field errors are empty, the page is out of edit mode, and nothing was
    handed to [onUpdate]. *)
Theorem cancel_restores_original
    (c : Circuit) (st0 : Details.State)
    (ts : list Details.Timer) (ups : list Circuit)
    (es : list Details.Event) :
  Forall userEvent es ->
  let w0 := {| Details.circuit := c; Details.state := st0;
               Details.timers := ts; Details.updates := ups |} in
  let w := Details.run w0 (Details.ClickEdit :: es ++ [Details.ClickCancel]) in
  Details.circuit w = c /\
  (forall k, get k (Details.circuit w) = get k c) /\
  Details.editedCircuit (Details.state w) = Some c /\
  Details.errors (Details.state w) = ∅ /\
  Details.isEditing (Details.state w) = false /\
  Details.updates w = ups.
Proof.
  intros Hes w0 w. subst w.
  change (Details.run w0 (Details.ClickEdit :: ?l))
    with (Details.run (Details.step w0 Details.ClickEdit) l).
  rewrite run_app.
  assert (H1 : atRest c ups (Details.step w0 Details.ClickEdit)).
  { unfold Details.step. subst w0. simpl.
    destruct (Details.isEditing st0) eqn:E.
    - split; [reflexivity|]. split; [reflexivity|]. simpl. congruence.
    - split; [reflexivity|]. split; [reflexivity|]. simpl. discriminate. }
  apply (run_user_atRest c ups es) in H1; [|assumption].
  set (w1 := Details.run _ es) in *. destruct H1 as (Hc & Hups & Hrest).
  cbn [Details.run foldl]. unfold Details.step.
  destruct (Details.isEditing (Details.state w1)) eqn:E.
  - simpl. rewrite Hc. auto 10.
  - destruct (Hrest eq_refl) as [He Herr]. rewrite Hc. auto 10.
Qed.

Lemma cancel_restores_witness :
  Details.editedCircuit
    (Details.state
       (Details.run (Details.mount (mkCircuit "CKT-9" "Acme" "10.0.0.1" "255.0.0.0" "8.8.8.8" "7" "1 Gbps" "Lab" "MUX-1" "P-1" "then"))
          [Details.ClickEdit; Details.Input K_vlan "x"; Details.ClickSave;
           Details.ClickCancel]))
  = Some (mkCircuit "CKT-9" "Acme" "10.0.0.1" "255.0.0.0" "8.8.8.8" "7" "1 Gbps" "Lab" "MUX-1" "P-1" "then").
Proof.
  apply (cancel_restores_original
           (mkCircuit "CKT-9" "Acme" "10.0.0.1" "255.0.0.0" "8.8.8.8" "7" "1 Gbps" "Lab" "MUX-1" "P-1" "then")
           (Details.initial (mkCircuit "CKT-9" "Acme" "10.0.0.1" "255.0.0.0" "8.8.8.8" "7" "1 Gbps" "Lab" "MUX-1" "P-1" "then"))
           [] [] [Details.Input K_vlan "x"; Details.ClickSave]).
  repeat constructor.
Defined.

(** ** Records handed to the callbacks *)

Lemma rendered_not_identifier (field : CircuitKey) (value : string) (e : Circuit) :
  existsb (Details.key_eqb field) Details.renderedFields = true ->
  circuit_id (set field value e) = circuit_id e.
Proof. destruct field; simpl; intros H; try reflexivity; discriminate. Qed.

Lemma step_updates (w : Details.World) (e : Details.Event) :
  Details.updates (Details.step w e) = Details.updates w \/
  exists n now captured,
    e = Details.Fire n now /\
    nth_error (Details.timers w) n = Some (Details.SaveTimer captured) /\
    Details.updates (Details.step w e)
      = Details.updates w ++ [Details.updatedCircuit captured now].
Proof.
  destruct e as [| | |field value|n now].
  - left. unfold Details.step. destruct (Details.isEditing _); reflexivity.
  - left. unfold Details.step. destruct (Details.isEditing _); reflexivity.
  - left. apply step_save.
  - left. unfold Details.step. destruct (_ && _); reflexivity.
  - unfold Details.step.
    destruct (nth_error (Details.timers w) n) as [[captured|]|] eqn:E.
    + right. exists n, now, captured. auto.
    + left. reflexivity.
    + left. reflexivity.
Qed.

Lemma step_sameIdentity (id : string) (w : Details.World) (e : Details.Event) :
  sameIdentity id w -> sameIdentity id (Details.step w e).
Proof.
  intros (Hc & He & Ht & Hu). destruct e as [| | |field value|n now].
  - unfold Details.step. destruct (Details.isEditing _).
    + repeat split; assumption.
    + repeat split; try assumption. simpl. intros e [= <-]. assumption.
  - unfold Details.step. destruct (Details.isEditing _).
    + repeat split; try assumption. simpl. intros e [= <-]. assumption.
    + repeat split; assumption.
  - destruct (step_save w) as (H1 & H2 & _ & H4 & H5).
    unfold sameIdentity. rewrite H1, H2, H4.
    repeat split; try assumption.
    destruct H5 as [->|(edited & Hed & _ & ->)]; [assumption|].
    apply Forall_app. split; [assumption|]. repeat constructor. auto.
  - unfold Details.step.
    destruct (Details.isEditing (Details.state w)
              && existsb (Details.key_eqb field) Details.renderedFields) eqn:E.
    + apply andb_true_iff in E as [_ E].
      repeat split; try assumption. unfold Details.handleFieldChange.
      destruct (Details.editedCircuit (Details.state w)) as [edited|] eqn:Hed;
        simpl; [|intros e; rewrite Hed; discriminate].
      intros e [= <-]. rewrite (rendered_not_identifier _ _ _ E). auto.
    + repeat split; assumption.
  - unfold Details.step.
    destruct (nth_error (Details.timers w) n) as [t|] eqn:E;
      [|repeat split; assumption].
    assert (Hrest : Forall (fun t => match t with
                              | Details.SaveTimer captured => circuit_id captured = id
                              | Details.ClearSuccessTimer => True
                              end)
                      (firstn n (Details.timers w) ++ skipn (S n) (Details.timers w))).
    { apply Forall_app. split; [apply Forall_take|apply Forall_drop]; assumption. }
    destruct t as [captured|]; simpl.
    + assert (Hcap : circuit_id captured = id).
      { apply nth_error_In in E.
        rewrite List.Forall_forall in Ht. apply (Ht _ E). }
      repeat split; try assumption.
      * apply Forall_app. split; [assumption|]. repeat constructor.
      * apply Forall_app. split; [assumption|]. repeat constructor. assumption.
    + repeat split; assumption.
Qed.

Lemma run_sameIdentity (id : string) (es : list Details.Event) (w : Details.World) :
  sameIdentity id w -> sameIdentity id (Details.run w es).
Proof.
  revert w. induction es as [|e es IH]; intros w Hw; [assumption|].
  apply (IH (Details.step w e)), step_sameIdentity, Hw.
Qed.

Lemma registration_accepted (st : Registration.State) :
  Registration.collectErrors (Registration.formData st) = ∅ ->
  (Registration.handleSubmit st).2 =
    [Registration.SetTimeout 1000
       (Registration.SubmitTimer (Registration.formData st))].
Proof.
  intros H. unfold Registration.handleSubmit. rewrite H. reflexivity.
Qed.

(** C7.  Registration: a submit that passes validation schedules one
    callback holding the form data as submitted; when it runs it hands to
    [onRegister] one record, whose [last_updated] is the clock reading at
    that moment, whose [circuit_id] is the submitted one and whose other
    fields are those of the form.  Edit: a record reaches [onUpdate] only
    when a save callback runs; that callback holds the editable copy as it
    was when Save was clicked, and the record is that copy with
    [last_updated] replaced by the clock reading, every other field being
    the same.  Whatever happens on the page after a record [c] is shown,
    the prop, the editable copy, the pending copies and every record handed
    to [onUpdate] have the [circuit_id] of [c]. *)
Theorem emitted_record_has_fresh_time_and_same_identifier :
  (forall st,
     Registration.collectErrors (Registration.formData st) = ∅ ->
     (Registration.handleSubmit st).2 =
       [Registration.SetTimeout 1000
          (Registration.SubmitTimer (Registration.formData st))]) /\
  (forall fd now st,
     (Registration.fire (Registration.SubmitTimer fd) now st).2 =
       [Registration.OnRegister (Registration.newCircuit fd now);
        Registration.SetTimeout 2000 Registration.RedirectTimer]) /\
  (forall fd now,
     let r := Registration.newCircuit fd now in
     last_updated r = now /\
     circuit_id r = Registration.f_circuit_id fd /\
     client_name r = Registration.f_client_name fd /\
     client_ip r = Registration.f_client_ip fd /\
     subnet r = Registration.f_subnet fd /\
     dns r = Registration.f_dns fd /\
     vlan r = Registration.f_vlan fd /\
     bandwidth r = Registration.f_bandwidth fd /\
     location r = Registration.f_location fd /\
     mux_id r = Registration.f_mux_id fd /\
     port_id r = Registration.f_port_id fd) /\
  (forall w,
     let w' := Details.step w Details.ClickSave in
     Details.timers w' = Details.timers w \/
     exists edited,
       Details.editedCircuit (Details.state w) = Some edited /\
       Details.collectErrors edited = ∅ /\
       Details.timers w' = Details.timers w ++ [Details.SaveTimer edited]) /\
  (forall w e,
     Details.updates (Details.step w e) = Details.updates w \/
     exists n now captured,
       e = Details.Fire n now /\
       nth_error (Details.timers w) n = Some (Details.SaveTimer captured) /\
       Details.updates (Details.step w e)
         = Details.updates w ++ [Details.updatedCircuit captured now]) /\
  (forall captured now,
     last_updated (Details.updatedCircuit captured now) = now /\
     forall k, k <> K_last_updated ->
               get k (Details.updatedCircuit captured now) = get k captured) /\
  (forall c es, sameIdentity (circuit_id c) (Details.run (Details.mount c) es)).
Proof.
  split; [exact registration_accepted|].
  split; [reflexivity|].
  split; [intros fd now; simpl; auto 20|].
  split; [intros w; apply step_save|].
  split; [exact step_updates|].
  split.
  - intros captured now. split; [reflexivity|].
    intros k Hk. destruct k; try reflexivity. congruence.
  - intros c es. apply run_sameIdentity.
    repeat split; simpl; try constructor. intros e [= <-]. reflexivity.
Qed.

(** ** The fields the edit path does not check *)

(** C2, evaluated.  The validator of the edit path has no rule for
    [location], [mux_id] and [port_id], which the save handler nevertheless
    passes to it: it accepts any value for them, where the validator of the
    registration path asks for three characters.  Editing the location of
    the first demo record to ["NY"] and saving hands the record with that
    location to [onUpdate]. *)
Lemma edit_save_accepts_short_location :
  (forall v, Details.validateField "location" v = "" /\
             Details.validateField "mux_id" v = "" /\
             Details.validateField "port_id" v = "") /\
  Registration.validateField "location" "NY" = "Location must be at least 3 characters" /\
  forall c, head Search.mockCircuits = Some c ->
    Details.collectErrors (set K_location "NY" c) = ∅ /\
    Details.updates
      (Details.run (Details.mount c)
         [Details.ClickEdit; Details.Input K_location "NY";
          Details.ClickSave; Details.Fire 0 "now"])
    = [set K_last_updated "now" (set K_location "NY" c)].
Proof.
  split; [intros v; repeat split|]. split; [reflexivity|].
  intros c [= <-]. split; [|reflexivity].
  apply map_eq. intros k. rewrite lookup_empty.
  destruct (Details.collectErrors _ !! k) as [msg|] eqn:E; [|reflexivity].
  apply details_errors_lookup in E as (field & Hin & -> & Hne & Hmsg).
  exfalso. apply Hne. rewrite Hmsg. clear -Hin.
  simpl in Hin. repeat (destruct Hin as [<-|Hin]; [reflexivity|]). destruct Hin.
Qed.

(** * Further properties of the sources *)

(** ** Lookup: the three outcomes *)

Lemma blank_all_space (s : string) :
  Str.trim s = "" <-> Str.all Char.is_space s = true.
Proof.
  split.
  - intros H. apply trim_blank_trimStart in H.
    induction s as [|c s IH]; [reflexivity|].
    simpl in *. destruct (Char.is_space c); [auto|discriminate].
  - intros H. assert (E : Str.trimStart s = "").
    { induction s as [|c s IH]; [reflexivity|].
      simpl in *. apply andb_true_iff in H as [-> Hs]. auto. }
    unfold Str.trim. rewrite E. reflexivity.
Qed.

Lemma lookup_blank (q : string) :
  Str.trim q = "" -> Search.lookup q = Search.Refused "Please enter a Circuit ID".
Proof.
  intros H. unfold Search.lookup, Search.handleSearch. cbn [Search.circuitId].
  rewrite H. reflexivity.
Qed.

(** X1.  The outcome of a lookup is one of three.  It is the request to
    enter an identifier exactly when the query is blank.  A record that is
    selected belongs to the demo list and has the identifier of the query
    up to case.  The not-found message is given only when no record of the
    list has that identifier up to case.  Looking up the identifier of a
    demo record as it is written selects that record. *)
Theorem lookup_outcome_sound (q : string) :
  (Str.trim q = "" <->
   Search.lookup q = Search.Refused "Please enter a Circuit ID") /\
  (forall msg, Search.lookup q = Search.Refused msg -> Str.trim q = "") /\
  (forall c, Search.lookup q = Search.Selected c ->
     Str.trim q <> "" /\ In c Search.mockCircuits /\
     Str.toLowerCase (circuit_id c) = Str.toLowerCase q) /\
  (forall msg, Search.lookup q = Search.NotFound msg ->
     Str.trim q <> "" /\ msg = Search.notFoundMessage q /\
     forall c, In c Search.mockCircuits ->
               Str.toLowerCase (circuit_id c) <> Str.toLowerCase q) /\
  (forall c, In c Search.mockCircuits ->
     Search.lookup (circuit_id c) = Search.Selected c).
Proof.
  assert (Hcases : Str.trim q = "" \/ Str.trim q <> "").
  { destruct (Str.trim q); [left; reflexivity|right; discriminate]. }
  assert (Hnb : Str.trim q <> "" ->
    Search.lookup q =
      match find (Search.sameId q) Search.mockCircuits with
      | Some c => Search.Selected c
      | None => Search.NotFound (Search.notFoundMessage q)
      end) by apply lookup_nonblank.
  split; [|split; [|split; [|split]]].
  - split; [apply lookup_blank|].
    intros H. destruct Hcases as [E|E]; [assumption|].
    rewrite (Hnb E) in H. destruct (find _ _); discriminate.
  - intros msg H. destruct Hcases as [E|E]; [assumption|].
    rewrite (Hnb E) in H. destruct (find _ _); discriminate.
  - intros c H. destruct Hcases as [E|E]; [rewrite (lookup_blank q E) in H; discriminate|].
    rewrite (Hnb E) in H.
    destruct (find _ _) as [c'|] eqn:Hf; [|discriminate]. injection H as ->.
    apply find_some in Hf as [Hin Hs]. apply sameId_true in Hs. auto.
  - intros msg H. destruct Hcases as [E|E]; [rewrite (lookup_blank q E) in H; discriminate|].
    rewrite (Hnb E) in H.
    destruct (find _ _) as [c'|] eqn:Hf; [discriminate|]. injection H as <-.
    split; [assumption|]. split; [reflexivity|].
    intros c Hin Hs. apply sameId_true in Hs.
    rewrite (find_none _ _ Hf c Hin) in Hs. discriminate.
  - intros c Hin. simpl in Hin.
    destruct Hin as [<-|[<-|[<-|[]]]]; reflexivity.
Qed.

Lemma lower_blank (q : string) :
  Str.trim (Str.toLowerCase q) = "" <-> Str.trim q = "".
Proof.
  rewrite !blank_all_space.
  assert (E : Str.all Char.is_space (Str.toLowerCase q) = Str.all Char.is_space q).
  { induction q as [|c q IH]; [reflexivity|].
    simpl. rewrite lower_keeps_space. unfold Str.toLowerCase in IH.
    rewrite IH. reflexivity. }
  rewrite E. reflexivity.
Qed.

(** X2.  The lookup does not see the case of the query: two queries with
    the same lower case are blank together, select the same record and are
    not found together. *)
Theorem lookup_ignores_case (q q' : string) :
  Str.toLowerCase q = Str.toLowerCase q' ->
  (Str.trim q = "" <-> Str.trim q' = "") /\
  (forall c, Search.lookup q = Search.Selected c <->
             Search.lookup q' = Search.Selected c) /\
  ((exists msg, Search.lookup q = Search.NotFound msg) <->
   (exists msg, Search.lookup q' = Search.NotFound msg)).
Proof.
  intros E.
  assert (Hb : Str.trim q = "" <-> Str.trim q' = "").
  { rewrite <- (lower_blank q), <- (lower_blank q'), E. reflexivity. }
  split; [assumption|].
  assert (Hcases : Str.trim q = "" \/ Str.trim q <> "").
  { destruct (Str.trim q); [left; reflexivity|right; discriminate]. }
  destruct Hcases as [B|B].
  - rewrite (lookup_blank q B), (lookup_blank q' (proj1 Hb B)).
    split; [intros c; split; discriminate|].
    split; intros [msg H]; discriminate.
  - assert (B' : Str.trim q' <> "") by (intros H; apply B, Hb, H).
    rewrite (lookup_nonblank q B), (lookup_nonblank q' B').
    assert (Hs : forall c, Search.sameId q c = Search.sameId q' c).
    { intros c. unfold Search.sameId. rewrite E. reflexivity. }
    unfold Search.mockCircuits. simpl find. rewrite !Hs.
    repeat match goal with
    | |- context [Search.sameId q' ?c] => destruct (Search.sameId q' c)
    end;
    (split; [intros c; first [reflexivity|split; discriminate]
           |split; intros [msg H]; try discriminate; eauto]).
Qed.

Lemma lookup_ignores_case_witness :
  (Str.trim "ckt-001-nyc" = "" <-> Str.trim "Ckt-001-Nyc" = "") /\
  (forall c, Search.lookup "ckt-001-nyc" = Search.Selected c <->
             Search.lookup "Ckt-001-Nyc" = Search.Selected c) /\
  ((exists msg, Search.lookup "ckt-001-nyc" = Search.NotFound msg) <->
   (exists msg, Search.lookup "Ckt-001-Nyc" = Search.NotFound msg)).
Proof.
  apply (lookup_ignores_case "ckt-001-nyc" "Ckt-001-Nyc"). reflexivity.
Defined.

(** ** The login form *)

Lemma nonblank_cases (s : string) : Str.trim s = "" \/ Str.trim s <> "".
Proof. destruct (Str.trim s); [left; reflexivity|right; discriminate]. Qed.

Lemma login_fire_effects (u p : string) (st : Login.State) :
  (Login.fire (Login.AuthTimer u p) st).2 =
    if String.eqb u "admin" && String.eqb p "admin123"
    then [Login.OnLogin u] else [].
Proof.
  unfold Login.fire. destruct (String.eqb u "admin" && String.eqb p "admin123");
    reflexivity.
Qed.

(** X3.  The login form.  With a blank user name or a blank password the
    submit only shows the request to enter both: nothing is scheduled and
    the loading flag is left alone.  Otherwise one check of the two strings
    as typed is scheduled.  The check calls [onLogin] exactly when the user
    name is [admin] and the password is [admin123], character for
    character, and then with the name [admin]; in every other case it only
    shows the invalid-credentials message. *)
Theorem login_needs_exact_credentials :
  (forall st,
     Str.trim (Login.username st) = "" \/ Str.trim (Login.password st) = "" ->
     Login.handleSubmit st =
       ({| Login.username := Login.username st;
           Login.password := Login.password st;
           Login.error := "Please enter both username and password";
           Login.loading := Login.loading st |}, [])) /\
  (forall st,
     Str.trim (Login.username st) <> "" -> Str.trim (Login.password st) <> "" ->
     Login.handleSubmit st =
       ({| Login.username := Login.username st;
           Login.password := Login.password st;
           Login.error := ""; Login.loading := true |},
        [Login.SetTimeout 1000
           (Login.AuthTimer (Login.username st) (Login.password st))])) /\
  (forall u p st name,
     In (Login.OnLogin name) (Login.fire (Login.AuthTimer u p) st).2 <->
     u = "admin" /\ p = "admin123" /\ name = "admin") /\
  (forall u p st,
     ~ (u = "admin" /\ p = "admin123") ->
     Login.fire (Login.AuthTimer u p) st =
       ({| Login.username := Login.username st;
           Login.password := Login.password st;
           Login.error := "Invalid username or password";
           Login.loading := false |}, [])) /\
  (forall p st, (Login.fire (Login.AuthTimer " admin" p) st).2 = [] /\
                (Login.fire (Login.AuthTimer "Admin" p) st).2 = []).
Proof.
  split; [|split; [|split; [|split]]].
  - intros st [H|H]; unfold Login.handleSubmit; rewrite H; simpl.
    + reflexivity.
    + rewrite orb_true_r. reflexivity.
  - intros st Hu Hp. unfold Login.handleSubmit.
    rewrite (trim_nonempty_truthy _ Hu), (trim_nonempty_truthy _ Hp). reflexivity.
  - intros u p st name. rewrite login_fire_effects.
    destruct (String.eqb_spec u "admin") as [->|Hu];
      destruct (String.eqb_spec p "admin123") as [->|Hp]; simpl.
    + split; [intros [[= <-]|[]]; repeat split|].
      intros (_ & _ & ->). left. reflexivity.
    + split; [intros []|]. intros (_ & Hp' & _). contradiction.
    + split; [intros []|]. intros (Hu' & _ & _). contradiction.
    + split; [intros []|]. intros (Hu' & _ & _). contradiction.
  - intros u p st Hne. unfold Login.fire.
    destruct (String.eqb u "admin") eqn:Eu; destruct (String.eqb p "admin123") eqn:Ep;
      simpl; try reflexivity.
    apply String.eqb_eq in Eu, Ep. tauto.
  - intros p st. split; reflexivity.
Qed.

Lemma remove_nth_length {A : Type} (l : list A) (n : nat) (t : A) :
  nth_error l n = Some t ->
  length l = S (length (firstn n l ++ skipn (S n) l)).
Proof.
  revert n. induction l as [|a l IH]; intros [|n] H; try discriminate.
  - simpl. rewrite skipn_O. reflexivity.
  - simpl in *. f_equal. apply IH. assumption.
Qed.

Lemma login_step_invariant (w : Login.World) (e : Login.Event) :
  Forall (eq "admin") (Login.logins w) /\
  length (Login.timers w) = (if Login.loading (Login.state w) then 1 else 0)%nat ->
  Forall (eq "admin") (Login.logins (Login.step w e)) /\
  length (Login.timers (Login.step w e))
    = (if Login.loading (Login.state (Login.step w e)) then 1 else 0)%nat.
Proof.
  intros [Hl Ht]. destruct e as [v|v| |n]; unfold Login.step.
  - destruct (Login.loading (Login.state w)) eqn:E; simpl; rewrite ?E; auto.
  - destruct (Login.loading (Login.state w)) eqn:E; simpl; rewrite ?E; auto.
  - destruct (Login.loading (Login.state w)) eqn:E; [rewrite E; auto|].
    unfold Login.handleSubmit.
    destruct (_ || _); simpl; rewrite ?E; [auto|].
    split; [assumption|]. rewrite length_app, Ht. reflexivity.
  - destruct (nth_error (Login.timers w) n) as [[u p]|] eqn:E; [|auto].
    pose proof (remove_nth_length _ _ _ E) as Hlen.
    assert (Hz : length (firstn n (Login.timers w) ++ skipn (S n) (Login.timers w)) = 0%nat).
    { destruct (Login.loading (Login.state w)); lia. }
    unfold Login.fire.
    destruct (String.eqb u "admin" && String.eqb p "admin123") eqn:Ec; simpl.
    + split; [|assumption]. apply Forall_app. split; [assumption|].
      apply andb_true_iff in Ec as [Eu _]. apply String.eqb_eq in Eu.
      repeat constructor. congruence.
    + auto.
Qed.

(** X4.  Whatever is typed, submitted and fired on the login form from its
    first display: [onLogin] is only ever called with the name [admin], and
    a check is pending exactly while the form is loading, one at a time. *)
Theorem login_only_admin_one_at_a_time (es : list Login.Event) :
  let w := Login.run Login.start es in
  Forall (eq "admin") (Login.logins w) /\
  length (Login.timers w)
    = (if Login.loading (Login.state w) then 1 else 0)%nat.
Proof.
  unfold Login.run.
  assert (H0 : Forall (eq "admin") (Login.logins Login.start) /\
               length (Login.timers Login.start)
               = (if Login.loading (Login.state Login.start) then 1 else 0)%nat)
    by (split; [constructor|reflexivity]).
  revert H0. generalize Login.start.
  induction es as [|e es IH]; intros w Hw; [assumption|].
  apply (IH (Login.step w e)), login_step_invariant, Hw.
Qed.

(** ** The page that holds the views *)



(** ** What a validation pass lets through *)

Lemma registration_no_errors (fd : Registration.FormData) :
  Registration.collectErrors fd = ∅ <->
  forall k v, In (k, v) (Registration.entries fd) ->
              Str.trim v <> "" /\ Registration.validateField k v = "".
Proof.
  unfold Registration.collectErrors. split.
  - intros E k v Hin.
    assert (Hnone : forall msg,
              ~ (msg <> "" /\
                 msg = if negb (Str.truthy (Str.trim v))
                       then Registration.requiredMessage k
                       else Registration.validateField k v)).
    { intros msg [Hne Hmsg].
      assert (H : Registration.collectErrorsWith Registration.validateField fd !! k
                  = Some msg)
        by (apply registration_errors_lookup; exists v; auto).
      rewrite E, lookup_empty in H. discriminate. }
    destruct (nonblank_cases v) as [B|B].
    + exfalso. apply (Hnone (Registration.requiredMessage k)).
      rewrite B. split; [apply requiredMessage_nonempty|reflexivity].
    + split; [assumption|].
      destruct (decide (Registration.validateField k v = "")) as [|Ev];
        [assumption|].
      exfalso. apply (Hnone (Registration.validateField k v)).
      rewrite (trim_nonempty_truthy v B). split; [assumption|reflexivity].
  - intros H. apply map_eq. intros k. rewrite lookup_empty.
    destruct (_ !! k) as [msg|] eqn:E; [|reflexivity].
    apply registration_errors_lookup in E as (v & Hin & Hne & Hmsg).
    destruct (H k v Hin) as [B Hv].
    rewrite (trim_nonempty_truthy v B), Hv in Hmsg. contradiction.
Qed.

Lemma details_no_errors (edited : Circuit) :
  Details.collectErrors edited = ∅ <->
  forall field, In field Details.editableFields ->
                Details.validateField (key_name field) (get field edited) = "".
Proof.
  split.
  - intros E field Hin.
    destruct (decide (Details.validateField (key_name field) (get field edited) = ""))
      as [|Ev]; [assumption|].
    assert (H : Details.collectErrors edited !! key_name field
                = Some (Details.validateField (key_name field) (get field edited))).
    { apply details_errors_lookup. exists field. repeat split; assumption. }
    rewrite E, lookup_empty in H. discriminate.
  - intros H. apply map_eq. intros k. rewrite lookup_empty.
    destruct (_ !! k) as [msg|] eqn:E; [|reflexivity].
    apply details_errors_lookup in E as (field & Hin & -> & Hne & Hmsg).
    rewrite (H field Hin) in Hmsg. contradiction.
Qed.

Lemma length_rule (v : string) (n : nat) (msg : string) :
  msg <> "" ->
  (if shorter v n then msg else "") = "" <-> (n <= String.length v)%nat.
Proof.
  intros Hm. unfold shorter.
  destruct (Nat.ltb_spec (String.length v) n); split; intros; try lia; congruence.
Qed.

Lemma registration_address_shape (field v : string) :
  In field addressFields ->
  Registration.validateField field v = "" <-> dottedShape v.
Proof.
  intros Hf. rewrite (registration_address field v Hf).
  unfold dottedShape. rewrite <- dottedQuad_dotted.
  destruct (Regex.test dottedQuad v); simpl; [tauto|].
  split; [|discriminate].
  destruct Hf as [<-|[<-|[<-|[]]]]; discriminate.
Qed.

Lemma dottedShape_not_blank (v : string) : dottedShape v -> Str.trim v <> "".
Proof.
  intros (g1 & g2 & g3 & g4 & -> & H1 & _).
  apply isGroup_digits in H1 as [Hd Hne].
  destruct g1 as [|c g1]; [congruence|].
  simpl in Hd. apply andb_true_iff in Hd as [Hc _].
  unfold dotted. rewrite app_cons. apply trim_head_not_space.
  apply (digit_facts c Hc).
Qed.

Lemma bandwidthShape_not_blank (v : string) : bandwidthShape v -> Str.trim v <> "".
Proof.
  intros (ds & ws & u & -> & Hne & Hd & _).
  destruct ds as [|c ds]; [congruence|].
  simpl in Hd. apply andb_true_iff in Hd as [Hc _].
  rewrite app_cons. apply trim_head_not_space. apply (digit_facts c Hc).
Qed.

Lemma vlanReadable_not_blank (v : string) : vlanReadable v -> Str.trim v <> "".
Proof.
  intros (n & Hn & _) B. rewrite (parseInt_blank v B) in Hn. discriminate.
Qed.

Lemma details_address_shape (field v : string) :
  In field addressFields ->
  Details.validateField field v = "" <-> octetShape v.
Proof.
  intros Hf. rewrite (details_address field v Hf). split.
  - destruct (Regex.test dottedQuad v) eqn:Ht; simpl;
      [|destruct Hf as [<-|[<-|[<-|[]]]]; discriminate].
    apply dottedQuad_dotted in Ht as (g1 & g2 & g3 & g4 & -> & H1 & H2 & H3 & H4).
    rewrite split_dotted by assumption. simpl.
    rewrite !gt_group by assumption.
    destruct (255 <? decimal g1) eqn:E1; simpl;
      [destruct Hf as [<-|[<-|[<-|[]]]]; discriminate|].
    destruct (255 <? decimal g2) eqn:E2; simpl;
      [destruct Hf as [<-|[<-|[<-|[]]]]; discriminate|].
    destruct (255 <? decimal g3) eqn:E3; simpl;
      [destruct Hf as [<-|[<-|[<-|[]]]]; discriminate|].
    destruct (255 <? decimal g4) eqn:E4; simpl;
      [destruct Hf as [<-|[<-|[<-|[]]]]; discriminate|].
    intros _. apply Z.ltb_ge in E1, E2, E3, E4.
    exists g1, g2, g3, g4. auto 10.
  - intros (g1 & g2 & g3 & g4 & -> & H1 & H2 & H3 & H4 & L1 & L2 & L3 & L4).
    assert (Ht : Regex.test dottedQuad (dotted g1 g2 g3 g4) = true)
      by (apply dottedQuad_dotted; exists g1, g2, g3, g4; auto).
    rewrite Ht, split_dotted by assumption. simpl.
    rewrite !gt_group by assumption.
    apply Z.ltb_ge in L1, L2, L3, L4. rewrite L1, L2, L3, L4. reflexivity.
Qed.

Lemma reg_circuit_id (v : string) :
  Registration.validateField "circuit_id" v = "" <-> (3 <= String.length v)%nat.
Proof. apply (length_rule v 3 "Circuit ID must be at least 3 characters"). discriminate. Qed.

Lemma reg_client_name (v : string) :
  Registration.validateField "client_name" v = "" <-> (2 <= String.length v)%nat.
Proof. apply (length_rule v 2 "Client name must be at least 2 characters"). discriminate. Qed.

Lemma reg_location (v : string) :
  Registration.validateField "location" v = "" <-> (3 <= String.length v)%nat.
Proof. apply (length_rule v 3 "Location must be at least 3 characters"). discriminate. Qed.

Lemma reg_mux_id (v : string) :
  Registration.validateField "mux_id" v = "" <-> (3 <= String.length v)%nat.
Proof. apply (length_rule v 3 "MUX ID must be at least 3 characters"). discriminate. Qed.

Lemma reg_port_id (v : string) :
  Registration.validateField "port_id" v = "" <-> (3 <= String.length v)%nat.
Proof. apply (length_rule v 3 "Port ID must be at least 3 characters"). discriminate. Qed.

Lemma reg_client_ip (v : string) :
  Registration.validateField "client_ip" v = "" <-> dottedShape v.
Proof. apply registration_address_shape. simpl. tauto. Qed.

Lemma reg_subnet (v : string) :
  Registration.validateField "subnet" v = "" <-> dottedShape v.
Proof. apply registration_address_shape. simpl. tauto. Qed.

Lemma reg_dns (v : string) :
  Registration.validateField "dns" v = "" <-> dottedShape v.
Proof. apply registration_address_shape. simpl. tauto. Qed.

Lemma registrable_no_errors (fd : Registration.FormData) :
  registrable fd <-> Registration.collectErrors fd = ∅.
Proof.
  rewrite registration_no_errors.
  destruct fd as [id name ip sn dn vl bw loc mux port].
  unfold registrable. cbn [Registration.entries Registration.f_circuit_id
    Registration.f_client_name Registration.f_client_ip Registration.f_subnet
    Registration.f_dns Registration.f_vlan Registration.f_bandwidth
    Registration.f_location Registration.f_mux_id Registration.f_port_id].
  rewrite <- reg_circuit_id, <- reg_client_name, <- reg_location, <- reg_mux_id,
    <- reg_port_id.
  split.
  - intros (Hid & Hname & Hip & Hsn & Hdn & Hvl & Hbw & Hloc & Hmux & Hport) k v Hin.
    simpl in Hin.
    repeat (destruct Hin as [[= <- <-]|Hin];
            [first [assumption
                   |split; [apply dottedShape_not_blank; assumption|]
                   |split; [apply vlanReadable_not_blank; assumption|]
                   |split; [apply bandwidthShape_not_blank; assumption|]]|]);
      try (destruct Hin).
    + apply reg_client_ip. assumption.
    + apply reg_subnet. assumption.
    + apply reg_dns. assumption.
    + apply vlan_by_parseInt. assumption.
    + apply bandwidth_by_shape. assumption.
  - intros H.
    split; [apply H; simpl; tauto|].
    split; [apply H; simpl; tauto|].
    split; [apply reg_client_ip, H; simpl; tauto|].
    split; [apply reg_subnet, H; simpl; tauto|].
    split; [apply reg_dns, H; simpl; tauto|].
    split; [apply vlan_by_parseInt, H; simpl; tauto|].
    split; [apply bandwidth_by_shape, H; simpl; tauto|].
    split; [apply H; simpl; tauto|].
    split; apply H; simpl; tauto.
Qed.

(** X6.  The registration form is let through (the submit schedules the
    record and sets the loading flag) exactly when: the identifier, the
    location, the MUX id and the port id are not blank and have three
    characters or more; the client name is not blank and has two or more;
    the three addresses are four groups of one to three digits separated by
    dots; [parseInt] reads a VLAN between 1 and 4094; the bandwidth is
    digits, optional white space and a unit.  In every other case the
    submit schedules nothing. *)
Theorem registration_lets_through_exactly (st : Registration.State) :
  (registrable (Registration.formData st) <->
   Registration.handleSubmit st =
     ({| Registration.formData := Registration.formData st;
         Registration.loading := true;
         Registration.success := Registration.success st;
         Registration.errors := Registration.errors st |},
      [Registration.SetTimeout 1000
         (Registration.SubmitTimer (Registration.formData st))])) /\
  (~ registrable (Registration.formData st) <->
   (Registration.handleSubmit st).2 = []) /\
  (registrable (Registration.formData st) <->
   Registration.collectErrors (Registration.formData st) = ∅).
Proof.
  pose proof (registrable_no_errors (Registration.formData st)) as Hchar.
  assert (Hsub : Registration.collectErrors (Registration.formData st) = ∅ \/
                 Registration.collectErrors (Registration.formData st) <> ∅).
  { destruct (decide (Registration.collectErrors (Registration.formData st) = ∅));
      auto. }
  split; [|split; [|assumption]].
  - rewrite Hchar. split.
    + intros E. unfold Registration.handleSubmit. rewrite E. reflexivity.
    + intros H. destruct Hsub as [E|E]; [assumption|].
      rewrite (registration_blocked st E) in H. discriminate.
  - rewrite Hchar. split.
    + intros E. apply not_eq_sym in E. apply not_eq_sym in E.
      rewrite (registration_blocked st E). reflexivity.
    + intros H E. unfold Registration.handleSubmit in H. rewrite E in H.
      discriminate.
Qed.

Lemma det_client_name (v : string) :
  Details.validateField "client_name" v = "" <-> (2 <= String.length v)%nat.
Proof.
  apply (length_rule v 2 "Client name must be at least 2 characters"). discriminate.
Qed.

Lemma det_address (field v : string) :
  In field addressFields -> Details.validateField field v = "" <-> octetShape v.
Proof. apply details_address_shape. Qed.

Lemma savable_no_errors (c : Circuit) :
  savable c <-> Details.collectErrors c = ∅.
Proof.
  rewrite details_no_errors. unfold savable. split.
  - intros (Hn & Hv & Hb & Hip & Hsn & Hdn) field Hin. simpl in Hin.
    repeat (destruct Hin as [<-|Hin]; [|]); try (destruct Hin); simpl.
    + apply det_client_name. assumption.
    + rewrite vlan_same_on_both_paths. apply vlan_by_parseInt. assumption.
    + rewrite bandwidth_same_on_both_paths. apply bandwidth_by_shape. assumption.
    + reflexivity.
    + reflexivity.
    + reflexivity.
    + apply (det_address "client_ip"); [simpl; tauto|assumption].
    + apply (det_address "subnet"); [simpl; tauto|assumption].
    + apply (det_address "dns"); [simpl; tauto|assumption].
  - intros H.
    split; [apply det_client_name, (H K_client_name); simpl; tauto|].
    split; [apply vlan_by_parseInt; rewrite <- vlan_same_on_both_paths;
            apply (H K_vlan); simpl; tauto|].
    split; [apply bandwidth_by_shape; rewrite <- bandwidth_same_on_both_paths;
            apply (H K_bandwidth); simpl; tauto|].
    split; [apply (det_address "client_ip");
            [simpl; tauto|apply (H K_client_ip); simpl; tauto]|].
    split; [apply (det_address "subnet");
            [simpl; tauto|apply (H K_subnet); simpl; tauto]|].
    apply (det_address "dns"); [simpl; tauto|apply (H K_dns); simpl; tauto].
Qed.

Lemma size_zero (m : gmap string string) :
  Nat.ltb 0 (size m) = false <-> m = ∅.
Proof.
  rewrite Nat.ltb_ge, <- map_size_empty_iff. lia.
Qed.

(** X7.  A save of an editable copy is let through (scheduled, with the
    loading flag set) exactly when the client name has two characters or
    more, [parseInt] reads a VLAN between 1 and 4094, the bandwidth is
    digits, optional white space and a unit, and the three addresses are
    dotted quads with every group at most 255; otherwise the save schedules
    nothing.  Nothing is asked of the location, the MUX id and the port id,
    and nothing has to be non-blank. *)
Theorem save_lets_through_exactly (st : Details.State) (edited : Circuit) :
  Details.editedCircuit st = Some edited ->
  (savable edited <->
   Details.handleSave st =
     ({| Details.isEditing := Details.isEditing st;
         Details.editedCircuit := Some edited;
         Details.loading := true;
         Details.success := Details.success st;
         Details.errors := Details.errors st |},
      [Details.SetTimeout 1000 (Details.SaveTimer edited)])) /\
  (~ savable edited <-> (Details.handleSave st).2 = []) /\
  (forall loc mux port,
     savable edited ->
     savable (set K_location loc (set K_mux_id mux (set K_port_id port edited)))).
Proof.
  intros He.
  split; [|split]; [rewrite savable_no_errors|rewrite savable_no_errors|].
  - split.
    + intros E. unfold Details.handleSave. rewrite He, E. reflexivity.
    + intros H.
      destruct (decide (Details.collectErrors edited = ∅)) as [|E]; [assumption|].
      rewrite (details_blocked st edited He E) in H. discriminate.
  - split.
    + intros E. rewrite (details_blocked st edited He E). reflexivity.
    + intros H E. unfold Details.handleSave in H. rewrite He, E in H.
      discriminate.
  - intros loc mux port H. destruct edited. exact H.
Qed.

Lemma save_lets_through_witness :
  ~ savable (mkCircuit "CKT-9" "Acme" "10.0.0.256" "255.0.0.0" "8.8.8.8" "7" "1 Gbps" "" "" "" "then")
  <-> (Details.handleSave
         (Details.initial
            (mkCircuit "CKT-9" "Acme" "10.0.0.256" "255.0.0.0" "8.8.8.8" "7" "1 Gbps" "" "" "" "then"))).2
      = [].
Proof.
  apply (save_lets_through_exactly
           (Details.initial
              (mkCircuit "CKT-9" "Acme" "10.0.0.256" "255.0.0.0" "8.8.8.8" "7" "1 Gbps" "" "" "" "then"))
           (mkCircuit "CKT-9" "Acme" "10.0.0.256" "255.0.0.0" "8.8.8.8" "7" "1 Gbps" "" "" "" "then")).
  reflexivity.
Defined.

(** ** What reaches the callbacks, over all runs *)

Lemma filter_remove_nth {A : Type} (p : A -> bool) (l : list A) (n : nat) (t : A) :
  nth_error l n = Some t ->
  length (List.filter p l)
  = (length (List.filter p (firstn n l ++ skipn (S n) l))
     + (if p t then 1 else 0))%nat.
Proof.
  revert n. induction l as [|a l IH]; intros [|n] H; try discriminate.
  - injection H as ->. simpl. rewrite skipn_O.
    destruct (p t); simpl; lia.
  - simpl in H. specialize (IH n H).
    change (firstn (S n) (a :: l) ++ skipn (S (S n)) (a :: l))
      with (a :: (firstn n l ++ skipn (S n) l)).
    simpl. destruct (p a); simpl; lia.
Qed.

Lemma formOf_newCircuit (fd : Registration.FormData) (now : string) :
  formOf (Registration.newCircuit fd now) = fd.
Proof. destruct fd; reflexivity. Qed.

(** The invariant of the registration page. *)
Lemma registration_step_invariant (w : ClientRegistration.World)
    (e : ClientRegistration.Event) :
  let inv := fun w =>
    Forall (fun t => match t with
                     | Registration.SubmitTimer fd =>
                         Registration.collectErrors fd = ∅
                     | Registration.RedirectTimer => True
                     end) (ClientRegistration.timers w) /\
    Forall (fun r => Registration.collectErrors (formOf r) = ∅)
           (ClientRegistration.registered w) /\
    length (List.filter isSubmitTimer (ClientRegistration.timers w))
    = (if Registration.loading (ClientRegistration.state w) then 1 else 0)%nat in
  inv w -> inv (ClientRegistration.step w e).
Proof.
  intros inv (Ht & Hr & Hc). subst inv. cbv beta.
  destruct e as [field value| |n now]; unfold ClientRegistration.step.
  - destruct (Registration.success (ClientRegistration.state w)); simpl; auto.
  - destruct (negb (Registration.success (ClientRegistration.state w))
              && negb (Registration.loading (ClientRegistration.state w))) eqn:G;
      [|auto].
    apply andb_true_iff in G as [_ G]. apply negb_true_iff in G.
    rewrite G in Hc. unfold Registration.handleSubmit.
    destruct (Nat.ltb 0 (size _)) eqn:Hs; simpl.
    + rewrite G. auto.
    + apply size_zero in Hs. repeat split.
      * apply Forall_app. split; [assumption|]. repeat constructor. assumption.
      * assumption.
      * rewrite List.filter_app, length_app, Hc. reflexivity.
  - destruct (nth_error (ClientRegistration.timers w) n) as [t|] eqn:E; [|auto].
    pose proof (filter_remove_nth isSubmitTimer _ _ _ E) as Hlen.
    assert (Hrest : Forall (fun t => match t with
                              | Registration.SubmitTimer fd =>
                                  Registration.collectErrors fd = ∅
                              | Registration.RedirectTimer => True
                              end)
                      (firstn n (ClientRegistration.timers w)
                       ++ skipn (S n) (ClientRegistration.timers w))).
    { apply Forall_app. split; [apply Forall_take|apply Forall_drop]; assumption. }
    destruct t as [fd|]; simpl in *.
    + assert (Hfd : Registration.collectErrors fd = ∅).
      { apply nth_error_In in E. rewrite List.Forall_forall in Ht. apply (Ht _ E). }
      repeat split.
      * apply Forall_app. split; [assumption|]. repeat constructor.
      * apply Forall_app. split; [assumption|]. repeat constructor.
        rewrite formOf_newCircuit. assumption.
      * rewrite List.filter_app, length_app. simpl.
        destruct (Registration.loading (ClientRegistration.state w)); lia.
    + repeat split; try assumption. lia.
Qed.

Lemma registration_run_invariant (es : list ClientRegistration.Event) :
  let w := ClientRegistration.run ClientRegistration.start es in
  Forall (fun r => Registration.collectErrors (formOf r) = ∅)
         (ClientRegistration.registered w) /\
  length (List.filter isSubmitTimer (ClientRegistration.timers w))
  = (if Registration.loading (ClientRegistration.state w) then 1 else 0)%nat.
Proof.
  unfold ClientRegistration.run.
  assert (H0 :
    Forall (fun t => match t with
                     | Registration.SubmitTimer fd =>
                         Registration.collectErrors fd = ∅
                     | Registration.RedirectTimer => True
                     end) (ClientRegistration.timers ClientRegistration.start) /\
    Forall (fun r => Registration.collectErrors (formOf r) = ∅)
           (ClientRegistration.registered ClientRegistration.start) /\
    length (List.filter isSubmitTimer (ClientRegistration.timers ClientRegistration.start))
    = (if Registration.loading (ClientRegistration.state ClientRegistration.start)
       then 1 else 0)%nat)
    by (repeat split; constructor).
  revert H0. generalize ClientRegistration.start.
  induction es as [|e es IH]; intros w Hw.
  - simpl. tauto.
  - apply (IH (ClientRegistration.step w e)).
    apply (registration_step_invariant w e Hw).
Qed.

(** X8.  Whatever is typed, submitted and fired on the registration page
    from its first display, every record handed to [onRegister] went
    through the validation: its ten fields satisfy the conditions under
    which the form is let through.  Typing in the form while a submit is
    pending does not change that. *)
Theorem registered_records_are_valid (es : list ClientRegistration.Event) :
  Forall (fun r => registrable (formOf r))
    (ClientRegistration.registered
       (ClientRegistration.run ClientRegistration.start es)).
Proof.
  destruct (registration_run_invariant es) as [H _].
  eapply List.Forall_impl; [|exact H].
  intros r Hr. apply registrable_no_errors. assumption.
Qed.

(** X9.  On the registration page a submit is pending exactly while the
    page is loading, and then there is one: two submits are never in
    flight together. *)
Theorem registration_one_submit_in_flight (es : list ClientRegistration.Event) :
  let w := ClientRegistration.run ClientRegistration.start es in
  length (List.filter isSubmitTimer (ClientRegistration.timers w))
  = (if Registration.loading (ClientRegistration.state w) then 1 else 0)%nat.
Proof. apply registration_run_invariant. Qed.

Lemma collectErrors_ignores_time (c : Circuit) (now : string) :
  Details.collectErrors (Details.updatedCircuit c now) = Details.collectErrors c.
Proof. destruct c; reflexivity. Qed.

(** The invariant of the details page. *)
Lemma details_step_invariant (w : Details.World) (e : Details.Event) :
  let inv := fun w =>
    Forall (fun t => match t with
                     | Details.SaveTimer captured =>
                         Details.collectErrors captured = ∅
                     | Details.ClearSuccessTimer => True
                     end) (Details.timers w) /\
    Forall (fun r => Details.collectErrors r = ∅) (Details.updates w) /\
    length (List.filter isSaveTimer (Details.timers w))
    = (if Details.loading (Details.state w) then 1 else 0)%nat in
  inv w -> inv (Details.step w e).
Proof.
  intros inv (Ht & Hr & Hc). subst inv. cbv beta.
  destruct e as [| | |field value|n now]; unfold Details.step.
  - destruct (Details.isEditing (Details.state w)); simpl; auto.
  - destruct (Details.isEditing (Details.state w)); simpl; auto.
  - destruct (Details.isEditing (Details.state w)
              && negb (Details.loading (Details.state w))) eqn:G; [|auto].
    apply andb_true_iff in G as [_ G]. apply negb_true_iff in G.
    rewrite G in Hc. unfold Details.handleSave.
    destruct (Details.editedCircuit (Details.state w)) as [edited|] eqn:He;
      simpl; [|rewrite G; auto].
    destruct (Nat.ltb 0 (size _)) eqn:Hs; simpl.
    + rewrite G. auto.
    + apply size_zero in Hs. repeat split.
      * apply Forall_app. split; [assumption|]. repeat constructor. assumption.
      * assumption.
      * rewrite List.filter_app, length_app, Hc. reflexivity.
  - destruct (Details.isEditing (Details.state w) && _); [|auto].
    unfold Details.handleFieldChange.
    destruct (Details.editedCircuit (Details.state w)); simpl; auto.
  - destruct (nth_error (Details.timers w) n) as [t|] eqn:E; [|auto].
    pose proof (filter_remove_nth isSaveTimer _ _ _ E) as Hlen.
    assert (Hrest : Forall (fun t => match t with
                              | Details.SaveTimer captured =>
                                  Details.collectErrors captured = ∅
                              | Details.ClearSuccessTimer => True
                              end)
                      (firstn n (Details.timers w) ++ skipn (S n) (Details.timers w))).
    { apply Forall_app. split; [apply Forall_take|apply Forall_drop]; assumption. }
    destruct t as [captured|]; simpl in *.
    + assert (Hcap : Details.collectErrors captured = ∅).
      { apply nth_error_In in E. rewrite List.Forall_forall in Ht. apply (Ht _ E). }
      repeat split.
      * apply Forall_app. split; [assumption|]. repeat constructor.
      * apply Forall_app. split; [assumption|]. repeat constructor.
        rewrite collectErrors_ignores_time. assumption.
      * rewrite List.filter_app, length_app. simpl.
        destruct (Details.loading (Details.state w)); lia.
    + repeat split; try assumption. lia.
Qed.

Lemma details_run_invariant (c : Circuit) (es : list Details.Event) :
  let w := Details.run (Details.mount c) es in
  Forall (fun r => Details.collectErrors r = ∅) (Details.updates w) /\
  length (List.filter isSaveTimer (Details.timers w))
  = (if Details.loading (Details.state w) then 1 else 0)%nat.
Proof.
  unfold Details.run.
  assert (H0 :
    Forall (fun t => match t with
                     | Details.SaveTimer captured =>
                         Details.collectErrors captured = ∅
                     | Details.ClearSuccessTimer => True
                     end) (Details.timers (Details.mount c)) /\
    Forall (fun r => Details.collectErrors r = ∅) (Details.updates (Details.mount c)) /\
    length (List.filter isSaveTimer (Details.timers (Details.mount c)))
    = (if Details.loading (Details.state (Details.mount c)) then 1 else 0)%nat)
    by (repeat split; constructor).
  revert H0. generalize (Details.mount c).
  induction es as [|e es IH]; intros w Hw.
  - simpl. tauto.
  - apply (IH (Details.step w e)). apply (details_step_invariant w e Hw).
Qed.

(** X10.  Whatever happens on the details page after a record is shown,
    every record handed to [onUpdate] went through the validation of the
    save: its client name, VLAN and bandwidth satisfy their rules and its
    three addresses are dotted quads with every group at most 255. *)
Theorem updated_records_are_valid (c : Circuit) (es : list Details.Event) :
  Forall savable (Details.updates (Details.run (Details.mount c) es)).
Proof.
  destruct (details_run_invariant c es) as [H _].
  eapply List.Forall_impl; [|exact H].
  intros r Hr. apply savable_no_errors. assumption.
Qed.

(** X11.  On the details page a save is pending exactly while the page is
    loading, and then there is one: two saves are never in flight
    together. *)
Theorem details_one_save_in_flight (c : Circuit) (es : list Details.Event) :
  let w := Details.run (Details.mount c) es in
  length (List.filter isSaveTimer (Details.timers w))
  = (if Details.loading (Details.state w) then 1 else 0)%nat.
Proof. apply details_run_invariant. Qed.

(** ** A pending submit or save cannot be stopped or changed *)









(** ** Typing in a field *)

Lemma hasError_after_clear (errs : gmap string string) (name : string) :
  Details.hasError
    (if Details.hasError errs name then <[name := ""]> errs else errs) name
  = false.
Proof.
  destruct (Details.hasError errs name) eqn:E; [|assumption].
  unfold Details.hasError. rewrite lookup_insert_eq. reflexivity.
Qed.

Lemma lookup_after_clear (errs : gmap string string) (name other : string) :
  other <> name ->
  (if Details.hasError errs name then <[name := ""]> errs else errs) !! other
  = errs !! other.
Proof.
  intros H. destruct (Details.hasError errs name); [|reflexivity].
  apply lookup_insert_ne. congruence.
Qed.

(** X14.  Typing a value in a field of the edit form puts that value in
    that field of the editable copy and leaves its other fields as they
    were; the message shown under that field, if any, is taken away, the
    messages of the other fields stay; nothing is validated, scheduled or
    handed to [onUpdate], and the record held by the page is not
    touched. *)
Theorem typing_in_edit_form
    (w : Details.World) (field : CircuitKey) (value : string) (edited : Circuit) :
  Details.isEditing (Details.state w) = true ->
  In field Details.renderedFields ->
  Details.editedCircuit (Details.state w) = Some edited ->
  let w' := Details.step w (Details.Input field value) in
  Details.editedCircuit (Details.state w') = Some (set field value edited) /\
  get field (set field value edited) = value /\
  (forall other, other <> field ->
                 get other (set field value edited) = get other edited) /\
  Details.hasError (Details.errors (Details.state w')) (key_name field) = false /\
  (forall name, name <> key_name field ->
     Details.errors (Details.state w') !! name
     = Details.errors (Details.state w) !! name) /\
  Details.circuit w' = Details.circuit w /\
  Details.timers w' = Details.timers w /\
  Details.updates w' = Details.updates w /\
  Details.isEditing (Details.state w') = true /\
  Details.loading (Details.state w') = Details.loading (Details.state w) /\
  Details.success (Details.state w') = Details.success (Details.state w).
Proof.
  intros Hed Hin He w'. subst w'.
  assert (Hr : existsb (Details.key_eqb field) Details.renderedFields = true).
  { simpl in Hin. repeat (destruct Hin as [<-|Hin]; [reflexivity|]). destruct Hin. }
  unfold Details.step. rewrite Hed, Hr. cbn [andb].
  unfold Details.handleFieldChange. rewrite He. simpl.
  split; [reflexivity|]. split; [destruct field; reflexivity|].
  split; [intros other Hne; destruct field, other; try reflexivity; congruence|].
  split; [apply hasError_after_clear|].
  split; [intros name Hne; apply lookup_after_clear; assumption|].
  auto 10.
Qed.

Lemma typing_in_edit_witness :
  Details.editedCircuit
    (Details.state
       (Details.step
          (Details.step
             (Details.mount (mkCircuit "CKT-9" "Acme" "10.0.0.1" "255.0.0.0" "8.8.8.8" "7" "1 Gbps" "Lab" "MUX-1" "P-1" "then"))
             Details.ClickEdit)
          (Details.Input K_vlan "8")))
  = Some (set K_vlan "8"
            (mkCircuit "CKT-9" "Acme" "10.0.0.1" "255.0.0.0" "8.8.8.8" "7" "1 Gbps" "Lab" "MUX-1" "P-1" "then")).
Proof.
  apply (typing_in_edit_form
           (Details.step
              (Details.mount (mkCircuit "CKT-9" "Acme" "10.0.0.1" "255.0.0.0" "8.8.8.8" "7" "1 Gbps" "Lab" "MUX-1" "P-1" "then"))
              Details.ClickEdit)
           K_vlan "8"
           (mkCircuit "CKT-9" "Acme" "10.0.0.1" "255.0.0.0" "8.8.8.8" "7" "1 Gbps" "Lab" "MUX-1" "P-1" "then")).
  - reflexivity.
  - simpl. tauto.
  - reflexivity.
Defined.

(** X15.  Typing a value in a field of the registration form puts that
    value in that field and leaves the other nine as they were; the message
    shown under that field, if any, is taken away, the messages of the
    other fields stay; nothing is validated, and the loading and success
    flags are left alone. *)
Theorem typing_in_registration_form
    (field : ClientRegistration.FormKey) (value : string) (st : Registration.State) :
  let st' := ClientRegistration.handleFieldChange field value st in
  ClientRegistration.getField field (Registration.formData st') = value /\
  (forall other, other <> field ->
     ClientRegistration.getField other (Registration.formData st')
     = ClientRegistration.getField other (Registration.formData st)) /\
  Details.hasError (Registration.errors st') (ClientRegistration.fieldName field)
    = false /\
  (forall name, name <> ClientRegistration.fieldName field ->
     Registration.errors st' !! name = Registration.errors st !! name) /\
  Registration.loading st' = Registration.loading st /\
  Registration.success st' = Registration.success st /\
  Registration.entries (Registration.formData st')
  = List.map (fun e => if String.eqb e.1 (ClientRegistration.fieldName field)
                       then (e.1, value) else e)
      (Registration.entries (Registration.formData st)).
Proof.
  intros st'. subst st'. unfold ClientRegistration.handleFieldChange. simpl.
  split; [destruct field; reflexivity|].
  split; [intros other Hne; destruct field, other; try reflexivity; congruence|].
  split; [apply hasError_after_clear|].
  split; [intros name Hne; apply lookup_after_clear; assumption|].
  split; [reflexivity|]. split; [reflexivity|].
  destruct field; reflexivity.
Qed.
